(** * From Jupyter to Production workshop: notebooks, compose file and
    the Python fragments they carry.

  The repository consists of a docker-compose file and six Jupyter
  notebooks.  The notebooks are embedded as data (cell kind and source
  lines), the compose file as the record structure its YAML denotes, and
  the Python fragments written in the notebooks as a small abstract
  syntax with an evaluation model for [evaluate_model]. *)

From Stdlib Require Import Ascii.
From stdpp Require Import gmap strings list.

(** ** Text helpers *)

Module Text.

(** The characters that cannot be written inside a string literal here. *)
Definition dq : string := String (Ascii.ascii_of_nat 34) EmptyString.
Definition bsl : string := String (Ascii.ascii_of_nat 92) EmptyString.

(** [starts_with p s]: Python's [s.startswith(p)]. *)
Fixpoint starts_with (p s : string) : bool :=
  match p, s with
  | EmptyString, _ => true
  | String a p', String b s' => if decide (a = b) then starts_with p' s' else false
  | String _ _, EmptyString => false
  end.

(** [contains p s]: Python's [p in s]. *)
Fixpoint contains (p s : string) : bool :=
  starts_with p s ||
  match s with
  | EmptyString => false
  | String _ s' => contains p s'
  end.

(** [lstrip s] drops leading blanks. *)
Fixpoint lstrip (s : string) : string :=
  match s with
  | String a s' => if Ascii.is_space a then lstrip s' else s
  | EmptyString => EmptyString
  end.

Definition is_blank (s : string) : bool :=
  match lstrip s with EmptyString => true | _ => false end.

(** [split_on c s]: Python's [s.split(c)] for a one-character separator. *)
Fixpoint split_go (c : Ascii.ascii) (cur s : string) : list string :=
  match s with
  | EmptyString => [String.rev cur]
  | String a s' =>
      if decide (a = c) then String.rev cur :: split_go c EmptyString s'
      else split_go c (String a cur) s'
  end.
Definition split_on (c : Ascii.ascii) (s : string) : list string :=
  split_go c EmptyString s.

(** Decimal numerals, as in a port number. *)
Fixpoint digits_go (acc : N) (s : string) : option N :=
  match s with
  | EmptyString => Some acc
  | String a s' =>
      match Ascii.is_nat a with
      | Some d => digits_go (10 * acc + N.of_nat d)%N s'
      | None => None
      end
  end.
Definition parse_N (s : string) : option N :=
  match s with
  | EmptyString => None
  | _ => digits_go 0%N s
  end.

(** [drop_chars n s]: Python's [s[n:]]. *)
Fixpoint drop_chars (n : nat) (s : string) : string :=
  match n, s with
  | S n', String _ s' => drop_chars n' s'
  | _, _ => s
  end.

(** [join sep l]: Python's [sep.join(l)]. *)
Fixpoint join (sep : string) (l : list string) : string :=
  match l with
  | [] => EmptyString
  | [s] => s
  | s :: l' => s +:+ sep +:+ join sep l'
  end.

(** [ends_with p s]: Python's [s.endswith(p)]. *)
Definition ends_with (p s : string) : bool :=
  starts_with (String.rev p) (String.rev s).

(** [squash s]: [s] without its layout: blanks dropped, single quotes turned
    into double quotes, and a comma dropped when a closing parenthesis,
    bracket or brace follows it.  Two Python texts with the same [squash] differ in
    layout only. *)
Fixpoint squash (s : string) : string :=
  match s with
  | EmptyString => EmptyString
  | String a s' =>
      let r := squash s' in
      if Ascii.is_space a then r
      else if decide (a = "'"%char) then String (ascii_of_nat 34) r
      else if decide (a = ","%char) then
        match r with
        | String b _ => if bool_decide (b ∈ [")"; "]"; "}"]%char) then r else String a r
        | EmptyString => String a r
        end
      else String a r
  end.

End Text.

(** ** Notebooks *)

Module Nb.
Import Text.

Inductive cell_kind := Markdown | Code.

(** A cell of an nbformat-4 notebook: its [cell_type] and its [source],
    one string per line, the line terminator dropped.  Outputs and
    execution counts play no role and are left out. *)
Record cell := Cell { cell_type : cell_kind; source : list string }.

Definition notebook := list cell.

Global Instance cell_kind_eq_dec : EqDecision cell_kind.
Proof. solve_decision. Defined.
Global Instance cell_eq_dec : EqDecision cell.
Proof. solve_decision. Defined.

(** The notebook "Airflow Classification Pipeline" (all cells are markdown). *)
Definition airflow_classification_pipeline : notebook := [
  Cell Markdown [
      "# Airflow Classification Pipeline" ];
  Cell Markdown [
      "Let's have a look at some of the components that Airflow provides. Please note: Airflow DAGs are to be specified in `.py` files, not Jupyter notebooks. This notebook only serves the presentation purpose and can not be directly used in Airflow." ];
  Cell Markdown [
      "# Directed Acyclic Graph (DAG)";
      EmptyString;
      "Each Airflow pipeline has to be a directed acyclic graph (i.e. no loops, clear task dependencies).";
      "We define a DAG in the following way:";
      EmptyString;
      "```python";
      "from airflow import DAG";
      EmptyString;
      "# the default args will be passed to all tasks belonging to the DAG";
      "default_args = {";
      "    'owner': 'airflow',";
      "    'start_date': datetime(2019, 8, 1),";
      "    ...";
      "}";
      EmptyString;
      "dag = DAG(";
      "    'jupyter2production-pipeline',";
      "    default_args=default_args,";
      "    schedule_interval=timedelta(days=1),";
      "    ...";
      ")";
      EmptyString;
      "```";
      EmptyString;
      "DAGs need to be placed into the folder `$AIRFLOW_HOME/dags`, where `$AIRFLOW_HOME` is usually set to `/usr/local/airflow`." ];
  Cell Markdown [
      "# Operators";
      EmptyString;
      "Each pipeline consists of steps, which are called operators. Operators execute some kind of task and finish when the task is done.";
      "Examples: `BashOperator`, `PythonOperator`, `DockerOperator`, `PostgresOperator`, ...";
      EmptyString;
      "There are also sensors, a special type of operators, which finish when a condition is met (i.e. another task has finished or a file exists). Don't worry so much about the difference between a normal operator and a sensor, just lookup what fits your needs the best in the well-documented [API](http://airflow.apache.org/docs/stable/_api/airflow/operators/index.html).";
      EmptyString;
      "This might be the most used operator: The `PythonOperator`.";
      EmptyString;
      "```python";
      "from airflow.operators.python_operator import PythonOperator";
      EmptyString;
      "def print_sth():";
      "    print(" +:+ dq +:+ "Our slides are still there!" +:+ dq +:+ ")";
      "    ";
      "python_task = PythonOperator(";
      "    task_id=" +:+ dq +:+ "print" +:+ dq +:+ ",";
      "    python_callable=print_sth,";
      "    provide_context=False,";
      "    dag=dag";
      ")";
      EmptyString;
      "```";
      "Note that Airflow will pass a set of keyword arguments like `execution_date` that can be used in your function if `provide_context` is set True.";
      EmptyString;
      "This is an example of a sensor:";
      EmptyString;
      "```python";
      "from airflow.contrib.sensors.file_sensor import FileSensor";
      EmptyString;
      "fs_task = FileSensor(";
      "    task_id=" +:+ dq +:+ "lookup_file" +:+ dq +:+ ",";
      "    filepath=" +:+ dq +:+ "/jupyter2production/slides/slides.pdf" +:+ dq +:+ ",";
      "    dag=dag";
      ")";
      "```";
      EmptyString ];
  Cell Markdown [
      "# Connecting Operators";
      EmptyString;
      "Airflow uses the bitshift operators `>>` and `<<` to connect pipeline steps together (you can also use `set_upstream()` or `set_downstream()`, but just don't...).";
      EmptyString;
      "`task1 >> task2` means: `task1` will be executed before `task2`, and vice versa for `<<`.";
      EmptyString;
      "**Tip**: Only use the `>>` to keep your code consistent and readable.";
      EmptyString;
      "Let's connect our operator and sensor that we defined above:";
      EmptyString;
      "```python";
      "fs_task >> python_task";
      "```";
      EmptyString;
      "That's it!" ];
  Cell Markdown [
      "# XCom";
      EmptyString;
      "Ideally all of our operators and sensors are independent of each other, that is: No variables, states etc. should have to be communicated between them. This allows an easy exchange of tasks. Since we cannot always avoid communication between tasks, Airflow provides the XCom (_cross-communication_) system, which follows a simple push-pull idea.";
      EmptyString;
      "You can push a variable in an operator via `xcom_push()` or the `return` statement, and pull (i.e. get) the variable in an other task by `xcom_pull()`.";
      EmptyString;
      "This is an example, how two python operators could communicate with each other via XCom:";
      EmptyString;
      "```python";
      "def foo():";
      "    x = " +:+ dq +:+ "hello world" +:+ dq;
      "    return x";
      EmptyString;
      EmptyString;
      "def bar(" +:+ "**context):";
      "    x = context[" +:+ dq +:+ "task_instance" +:+ dq +:+ "].xcom_pull(task_ids=" +:+ dq +:+ "task1" +:+ dq +:+ ")";
      "    print(x)";
      "    ";
      "    ";
      "task1 = PythonOperator(";
      "    task_id=" +:+ dq +:+ "task1" +:+ dq +:+ ",";
      "    python_callable=foo,";
      ")";
      EmptyString;
      "task2 = PythonOperator(";
      "    task_id=" +:+ dq +:+ "task2" +:+ dq +:+ ",";
      "    python_callable=bar,";
      "    provide_context=True,";
      ")";
      EmptyString;
      "task1 >> task2";
      "```";
      EmptyString;
      "**Note**: The pulling task needs to be provided with context." ];
  Cell Markdown [
      "# The web interface";
      EmptyString;
      "To monitor and manage your pipelines, Airflow offers a web interface. You can find it today at [localhost:8080](http://localhost:8080)" ];
  Cell Markdown [
      "# There is so much more!";
      EmptyString;
      "Airflow has many concepts to offer, which allow a robust but flexible execution. Some highlights are:";
      "- Error and retry management";
      "- Different executors (Celery, Sequential, Local), allowing for parallel execution on multiple nodes";
      "- Integration with GCP, AWS, Azure, ...";
      EmptyString;
      "Check out the [documentation page](https://airflow.apache.org/) for more information." ]
].

(** A second copy of the FastAPI introduction (it installs onnxruntime as well). *)
Definition fastapi_introduction_part : notebook := [
  Cell Markdown [
      "# FastAPI - Building fast and scalable REST APIs with Python";
      EmptyString;
      "From the FastAPI docs: *FastAPI is a modern, fast (high-performance), web framework for building APIs with Python 3.6+ based on standard Python type hints.*";
      EmptyString;
      "As data scientists we usually build models that are trained on data and optimised on some metrics. At some point, a model needs to be integrated into existing processes, systems and applications. One way to do this is build a microservice that is running inference. FastAPI is a framework that will help us to build a quick REST API that can be integrated into the existing enterprise landscape. " ];
  Cell Markdown [
      "## What is a REST API?";
      "If REST APIs are new to you, feel free to read this article [API Guide for Data Scientists](https://towardsdatascience.com/api-guide-for-data-scientists-e373f997ed61)." ];
  Cell Markdown [
      "## Why is FastAPI a great choice for inference?";
      "- High Performance: FastAPI sits on top of Starlette and Pydantic. Starlette is a very low level API framework. FastAPI provides a great abstraction around the Startlette Framework. Compared to other language like NodeJS and Go it provides a similar performance and is on one of the fastest Python frameworks that is available.";
      "- Huge productivity: It's very fast to code with FastAPI. In the docs they say the following: *Increase the speed to develop features by about 200% to 300%.*";
      "- Fewer bugs: Reduce about 40% of human (developer) induced errors. *";
      "- Intuitive: Great editor support. Completion everywhere. Less time debugging.";
      "- Easy: Designed to be easy to use and learn. Less time reading docs.";
      "- Short: Minimize code duplication. Multiple features from each parameter declaration. Fewer bugs.";
      "- Robust: Get production-ready code. With automatic interactive documentation.";
      "- Standards-based: Based on (and fully compatible with) the open standards for APIs: OpenAPI (previously known as Swagger) and JSON Schema." ];
  Cell Markdown [
      "## Let's jump straight into the framework" ];
  Cell Code [
      "# Installing fastapi and uvicorn to the run the application";
      "!pip install fastapi uvicorn onnxruntime" ];
  Cell Markdown [
      "Exercise: run the cell below open the API in the browser (localhost:7777/docs) and execute a calculation" ];
  Cell Code [
      "!uvicorn hello_world_app:app --port 7777 --host 0.0.0.0" ];
  Cell Markdown [
      "# Let's add inference" ];
  Cell Code [
      "!uvicorn main:app --port 7777 --host 0.0.0.0" ];
  Cell Code []
].

(** The Kedro exercise notebook "Task: Extend Kedro Pipeline". *)
Definition kedro_exercise : notebook := [
  Cell Markdown [
      "# Task: Extend Kedro Pipeline";
      EmptyString;
      "In this exercise, you will get more familier with Kedro by extending the workflow pipeline shown in the introduction.";
      EmptyString;
      "**Note that the introduction notebook should be run prior to this exercise.**";
      EmptyString;
      "Let's first change the working directory to the existing project." ];
  Cell Code [
      "import os";
      "os.chdir(" +:+ dq +:+ "/workshop/workspace/workflow-tutorial" +:+ dq +:+ ")" ];
  Cell Markdown [
      "## Subtask I: Add additional node to pipeline" ];
  Cell Markdown [
      "After training the model, it should be evaluated. Create a new Kedro `node` that takes as input the model, and the features `x_test` and target `y_test`.";
      EmptyString;
      "The output should be `evaluation_metric`: a json including several metrics.";
      EmptyString;
      "The following function can be used." ];
  Cell Code [
      "from typing import Dict";
      "import numpy as np";
      EmptyString;
      "from sklearn.pipeline import Pipeline";
      "from sklearn.metrics import mean_squared_error, mean_absolute_error, r2_score";
      EmptyString;
      "def evaluate_model(pipe: Pipeline, x_test: np.ndarray, y_test: np.ndarray) -> Dict:";
      "    " +:+ dq +:+ dq +:+ dq +:+ "Calculate the coefficient of determination and log the result.";
      EmptyString;
      "        Args:";
      "            pipe: Trained model.";
      "            X_test: Testing data of independent features.";
      "            y_test: Target.";
      "        Returns:";
      "            json with scores";
      EmptyString;
      "    " +:+ dq +:+ dq +:+ dq;
      "    y_pred = pipe.predict(x_test)";
      "    rmse = np.sqrt(mean_squared_error(y_test, y_pred))";
      "    mae = mean_absolute_error(y_test, y_pred)";
      "    r2 = r2_score(y_test, y_pred)";
      EmptyString;
      "    mlflow.log_metric(" +:+ dq +:+ "rmse" +:+ dq +:+ ", rmse)";
      "    mlflow.log_metric(" +:+ dq +:+ "mae" +:+ dq +:+ ", mae)";
      "    mlflow.log_metric(" +:+ dq +:+ "r2" +:+ dq +:+ ", r2)";
      EmptyString;
      "    logger = logging.getLogger(__name__)";
      "    logger.info(" +:+ dq +:+ "Model has a coefficient R^2 of %.3f." +:+ dq +:+ ", r2)";
      EmptyString;
      "    return {" +:+ dq +:+ "train" +:+ dq +:+ ": {" +:+ dq +:+ "rmse" +:+ dq +:+ ": float(rmse),";
      "                      " +:+ dq +:+ "mae" +:+ dq +:+ ": float(mae),";
      "                      " +:+ dq +:+ "r2" +:+ dq +:+ ": float(r2)}}" ];
  Cell Markdown [
      "You need to add this function to `workspace/workflow-tutorial/src/workflow_tutorial/pipelines/nodes.py`." ];
  Cell Markdown [
      "### Extend existing pipeline" ];
  Cell Code [
      "%%writefile src/workflow_tutorial/pipelines/pipeline.py";
      EmptyString;
      "from kedro.pipeline import Pipeline, node";
      EmptyString;
      "from .nodes import evaluate_model, split_data, train_model";
      EmptyString;
      EmptyString;
      "def create_pipeline(" +:+ "**kwargs):";
      "    return Pipeline(";
      "        [";
      "            node(";
      "                func=split_data,";
      "                inputs=[" +:+ dq +:+ "wines-red" +:+ dq +:+ ", " +:+ dq +:+ "parameters" +:+ dq +:+ "],";
      "                outputs=[" +:+ dq +:+ "x_train" +:+ dq +:+ ", " +:+ dq +:+ "x_test" +:+ dq +:+ ", " +:+ dq +:+ "y_train" +:+ dq +:+ ", " +:+ dq +:+ "y_test" +:+ dq +:+ "],";
      "                name=" +:+ dq +:+ "splitting_data" +:+ dq +:+ ",";
      "            ),";
      "            node(";
      "                func=train_model,";
      "                inputs=[" +:+ dq +:+ "x_train" +:+ dq +:+ ", " +:+ dq +:+ "y_train" +:+ dq +:+ ", " +:+ dq +:+ "parameters" +:+ dq +:+ "],";
      "                outputs=" +:+ dq +:+ "model" +:+ dq +:+ ",";
      "                name=" +:+ dq +:+ "training_model" +:+ dq +:+ ",";
      "            ),";
      "            node(";
      "                func=evaluate_model,";
      "                inputs=[" +:+ dq +:+ "model" +:+ dq +:+ ", " +:+ dq +:+ "x_test" +:+ dq +:+ ", " +:+ dq +:+ "y_test" +:+ dq +:+ "],";
      "                outputs=" +:+ dq +:+ "evaluation_metric" +:+ dq +:+ ",";
      "                name=" +:+ dq +:+ "evaluating_model" +:+ dq +:+ ",";
      "            ),";
      "        ]";
      "    )" ];
  Cell Markdown [
      "### Test and visualize pipeline" ];
  Cell Code [
      "!kedro run" ];
  Cell Code [
      "!kedro viz --host=0.0.0.0 --no-browser" ];
  Cell Markdown [
      "## Optional Subtask II: MLflow Tracking";
      "Run experiments with different parameters, preprocessing and feature engineering steps, ... and compare results with the MLflow tracking UI." ];
  Cell Code [
      "!kedro run --params alpha:0.1,l1_ratio:0.1" ];
  Cell Code [
      "!mlflow ui --host=0.0.0.0" ];
  Cell Markdown [
      "## Subtask III: Add second pipeline";
      "In the introduction, we have build a pipeline that predicts the quality of **red** wine.";
      "Let's now build a second Pipeline that predicts the quality of **white** wine." ];
  Cell Markdown [
      "### Set Parameters" ];
  Cell Markdown [
      "Setting the parameters.." ];
  Cell Code [
      "%%writefile conf/base/parameters.yml";
      "test_size: 0.25";
      "random_state: 42";
      EmptyString;
      "alpha: 0.5";
      "l1_ratio: 0.5";
      "    ";
      "white_wine_data_url: 'http://archive.ics.uci.edu/ml/machine-learning-databases/wine-quality/winequality-white.csv'" ];
  Cell Markdown [
      "## Set up the data";
      "Instead of using `wget`, create an additional node that downloads the [Wine Quality Data Set](http://archive.ics.uci.edu/ml/machine-learning-databases/wine-quality/winequality-white.csv) for white wines! You can use the following function." ];
  Cell Code [
      "import pandas as pd";
      EmptyString;
      "def download_data(url: str) -> pd.DataFrame: ";
      "    " +:+ dq +:+ dq +:+ dq +:+ "Download data from url to path";
      "        Args:";
      "            url: source";
      "        Returns: pandas DataFrame";
      "    " +:+ dq +:+ dq +:+ dq;
      "    data = pd.read_csv(url, sep=';')";
      "    ";
      "    logger = logging.getLogger(__name__)";
      "    logger.info(f" +:+ dq +:+ "Data downloaded from {url}" +:+ dq +:+ ")";
      EmptyString;
      "    return data" ];
  Cell Markdown [
      "### Register the datasets";
      "Register the dataset in the catalog! Note that the function `download_data` already knows that the file should be loaded with `;` as separator." ];
  Cell Code [
      "%%writefile conf/base/catalog.yml";
      EmptyString;
      "wines-red:";
      "  type: pandas.CSVDataSet";
      "  filepath: data/01_raw/winequality-red.csv";
      "  load_args:";
      "    sep: ';'";
      EmptyString;
      "wines-white:";
      "  type: pandas.CSVDataSet";
      "  filepath: data/01_raw/winequality-white.csv" ];
  Cell Markdown [
      "## Create the pipeline";
      "Create the new pipeline in `src/workflow_tutorial/pipelines/pipeline.py`." ];
  Cell Code [
      "%%writefile src/workflow_tutorial/pipelines/pipeline.py";
      EmptyString;
      "from kedro.pipeline import Pipeline, node";
      EmptyString;
      "from .nodes import evaluate_model, split_data, train_model, download_data";
      EmptyString;
      EmptyString;
      "def create_red_wine_pipeline(" +:+ "**kwargs):";
      "    return Pipeline(";
      "        [";
      "            node(";
      "                func=split_data,";
      "                inputs=[" +:+ dq +:+ "wines-red" +:+ dq +:+ ", " +:+ dq +:+ "parameters" +:+ dq +:+ "],";
      "                outputs=[" +:+ dq +:+ "x_train_red" +:+ dq +:+ ", " +:+ dq +:+ "x_test_red" +:+ dq +:+ ", " +:+ dq +:+ "y_train_red" +:+ dq +:+ ", " +:+ dq +:+ "y_test_red" +:+ dq +:+ "],";
      "                name=" +:+ dq +:+ "splitting_red_wine_data" +:+ dq +:+ ",";
      "            ),";
      "            node(";
      "                func=train_model,";
      "                inputs=[" +:+ dq +:+ "x_train_red" +:+ dq +:+ ", " +:+ dq +:+ "y_train_red" +:+ dq +:+ ", " +:+ dq +:+ "parameters" +:+ dq +:+ "],";
      "                outputs=" +:+ dq +:+ "model_red" +:+ dq +:+ ",";
      "                name=" +:+ dq +:+ "training_red_wine_model" +:+ dq +:+ ",";
      "            ),";
      "            node(";
      "                func=evaluate_model,";
      "                inputs=[" +:+ dq +:+ "model_red" +:+ dq +:+ ", " +:+ dq +:+ "x_test_red" +:+ dq +:+ ", " +:+ dq +:+ "y_test_red" +:+ dq +:+ "],";
      "                outputs=" +:+ dq +:+ "evaluation_metrics_red" +:+ dq +:+ ",";
      "                name=" +:+ dq +:+ "evaluating_red_wine_model" +:+ dq +:+ ",";
      "            ),";
      "        ]";
      "    )";
      EmptyString;
      "def create_white_wine_pipeline(" +:+ "**kwargs):";
      "    return Pipeline(";
      "        [";
      "            node(";
      "                func=download_data,";
      "                inputs=[" +:+ dq +:+ "params:white_wine_data_url" +:+ dq +:+ "],";
      "                outputs=" +:+ dq +:+ "wines-white" +:+ dq +:+ ",";
      "                name=" +:+ dq +:+ "download_white_wine_data" +:+ dq +:+ ",";
      "            ),";
      "            node(";
      "                func=split_data,";
      "                inputs=[" +:+ dq +:+ "wines-white" +:+ dq +:+ ", " +:+ dq +:+ "parameters" +:+ dq +:+ "],";
      "                outputs=[" +:+ dq +:+ "x_train_white" +:+ dq +:+ ", " +:+ dq +:+ "x_test_white" +:+ dq +:+ ", " +:+ dq +:+ "y_train_white" +:+ dq +:+ ", " +:+ dq +:+ "y_test_white" +:+ dq +:+ "],";
      "                name=" +:+ dq +:+ "splitting_white_wine_data" +:+ dq +:+ ",";
      "            ),";
      "            node(";
      "                func=train_model,";
      "                inputs=[" +:+ dq +:+ "x_train_white" +:+ dq +:+ ", " +:+ dq +:+ "y_train_white" +:+ dq +:+ ", " +:+ dq +:+ "parameters" +:+ dq +:+ "],";
      "                outputs=" +:+ dq +:+ "model_white" +:+ dq +:+ ",";
      "                name=" +:+ dq +:+ "training_white_wine_model" +:+ dq +:+ ",";
      "            ),";
      "            node(";
      "                func=evaluate_model,";
      "                inputs=[" +:+ dq +:+ "model_white" +:+ dq +:+ ", " +:+ dq +:+ "x_test_white" +:+ dq +:+ ", " +:+ dq +:+ "y_test_white" +:+ dq +:+ "],";
      "                outputs=" +:+ dq +:+ "evaluation_metrics_white" +:+ dq +:+ ",";
      "                name=" +:+ dq +:+ "evaluating_white_wine_model" +:+ dq +:+ ",";
      "            ),";
      "        ]";
      "    )" ];
  Cell Markdown [
      "### Register the pipeline";
      "You need to register the pipeline in `src/workflow_tutorial/hooks.py`.";
      EmptyString;
      "Note that `register_pipelines` returns `Dict[str, Pipeline]`, hence, you can return multiple pipelines for each type of wine.";
      EmptyString;
      "The default pipeline usually comprises all possible pipelines: You can simply add `red_wine_pipeline + white_wine_pipeline`." ];
  Cell Code [
      "%%writefile src/workflow_tutorial/hooks.py";
      EmptyString;
      dq +:+ dq +:+ dq +:+ "Project hooks." +:+ dq +:+ dq +:+ dq;
      "from typing import Any, Dict, Iterable, Optional";
      EmptyString;
      "from kedro.config import ConfigLoader";
      "from kedro.framework.hooks import hook_impl";
      "from kedro.io import DataCatalog";
      "from kedro.pipeline import Pipeline";
      "from kedro.versioning import Journal";
      EmptyString;
      "from workflow_tutorial.pipelines import pipeline";
      EmptyString;
      "class ProjectHooks:";
      "    @hook_impl";
      "    def register_pipelines(self) -> Dict[str, Pipeline]:";
      "        " +:+ dq +:+ dq +:+ dq +:+ "Register the project's pipeline.";
      EmptyString;
      "        Returns:";
      "            A mapping from a pipeline name to a ``Pipeline`` object.";
      EmptyString;
      "        " +:+ dq +:+ dq +:+ dq;
      "        red_wine_pipeline = pipeline.create_red_wine_pipeline()";
      "        white_wine_pipeline = pipeline.create_white_wine_pipeline()";
      "        ";
      "        return {";
      "            " +:+ dq +:+ "red" +:+ dq +:+ ": red_wine_pipeline,";
      "            " +:+ dq +:+ "white" +:+ dq +:+ ": white_wine_pipeline,";
      "            " +:+ dq +:+ "__default__" +:+ dq +:+ ": red_wine_pipeline + white_wine_pipeline,";
      "        }";
      EmptyString;
      "    @hook_impl";
      "    def register_config_loader(self, conf_paths: Iterable[str]) -> ConfigLoader:";
      "        return ConfigLoader(conf_paths)";
      EmptyString;
      "    @hook_impl";
      "    def register_catalog(";
      "        self,";
      "        catalog: Optional[Dict[str, Dict[str, Any]]],";
      "        credentials: Dict[str, Dict[str, Any]],";
      "        load_versions: Dict[str, str],";
      "        save_version: str,";
      "        journal: Journal,";
      "    ) -> DataCatalog:";
      "        return DataCatalog.from_config(";
      "            catalog, credentials, load_versions, save_version, journal";
      "        )";
      EmptyString;
      EmptyString;
      "project_hooks = ProjectHooks()" ];
  Cell Markdown [
      "## Run the pipeline";
      "You can either run the full (default) project pipeline or a pipeline specified with the `--pipeline` option." ];
  Cell Code [
      "#!kedro run --pipeline=red" ];
  Cell Code [
      "!kedro run -p" ];
  Cell Markdown [
      "## Kedro Visualization";
      "Visualize the pipeline using the kedro-viz plugin." ];
  Cell Code [
      "!kedro viz --host=0.0.0.0 --no-browser" ];
  Cell Markdown [
      "## Optional Subtask IV: Add data version control";
      "Add git and data version control (DVC - already installed) to the project!" ];
  Cell Code [
      "!git init";
      "!dvc init" ];
  Cell Markdown [
      "Add dvc remote storage (local)." ];
  Cell Code [
      "!dvc remote add -d -f local_storage /tmp/kedro" ];
  Cell Markdown [
      "Commit changes." ];
  Cell Code [
      "# for now let's not track the mlflow runs..";
      "!echo $'" +:+ bsl +:+ "nmlruns/**' >> .gitignore";
      "!git add ." ];
  Cell Code [
      "# If necessary, configure your git..";
      "#!git config --global user.email " +:+ dq +:+ "you@example.com" +:+ dq;
      "#!git config --global user.name " +:+ dq +:+ "Your Name" +:+ dq;
      "!git commit -m " +:+ dq +:+ "initial commit" +:+ dq ];
  Cell Markdown [
      "Add the model pickle and the metrics file to the catalog in order to not only store them as a Kedro `MemoryDataSet` but locally." ];
  Cell Code [
      "%%writefile conf/base/catalog.yml";
      EmptyString;
      "wines-red:";
      "  type: pandas.CSVDataSet";
      "  filepath: data/01_raw/winequality-red.csv";
      "  load_args:";
      "    sep: ';'";
      EmptyString;
      "wines-white:";
      "  type: pandas.CSVDataSet";
      "  filepath: data/01_raw/winequality-white.csv";
      EmptyString;
      "model_red:";
      "  type: pickle.PickleDataSet";
      "  filepath: data/06_models/model_red.pickle";
      EmptyString;
      "model_white:";
      "  type: pickle.PickleDataSet";
      "  filepath: data/06_models/model_white.pickle";
      EmptyString;
      "evaluation_metrics_red:";
      "  type: yaml.YAMLDataSet";
      "  filepath: data/08_reporting/scores_red.yaml";
      "    ";
      "evaluation_metrics_white:";
      "  type: yaml.YAMLDataSet";
      "  filepath: data/08_reporting/scores_white.yaml" ];
  Cell Markdown [
      "Create dvc pipelines for red and white wine." ];
  Cell Code [
      "%%bash";
      "dvc run -n kedro_red " +:+ bsl;
      "        -p conf/base/parameters.yml:test_size,random_state,alpha,l1_ratio " +:+ bsl;
      "        -d data/01_raw/winequality-red.csv " +:+ bsl;
      "        -d src/workflow_tutorial/pipelines " +:+ bsl;
      "        -m data/08_reporting/scores_red.yaml " +:+ bsl;
      "        -o data/06_models/model_red.pickle " +:+ bsl;
      "        'kedro run --pipeline=red'" ];
  Cell Code [
      "%%bash";
      "dvc run -n kedro_white " +:+ bsl;
      "        -p conf/base/parameters.yml:test_size,random_state,alpha,l1_ratio " +:+ bsl;
      "        -d data/01_raw/winequality-white.csv " +:+ bsl;
      "        -d src/workflow_tutorial/pipelines " +:+ bsl;
      "        -m data/08_reporting/scores_white.yaml " +:+ bsl;
      "        -o data/06_models/model_white.pickle " +:+ bsl;
      "        'kedro run --pipeline=white'" ];
  Cell Markdown [
      "Commit your changes and update dvc remote storage." ];
  Cell Code [
      "!git add .";
      "!git commit -m " +:+ dq +:+ "add dvc pipelines" +:+ dq ];
  Cell Code [
      "!dvc status -c" ];
  Cell Code [
      "!dvc push" ];
  Cell Markdown [
      "Everything should now be up to date.                                                       " ];
  Cell Code [
      "!git status";
      "!dvc status -c" ];
  Cell Code []
].

(** notebooks/fastapi/FastAPI_Introduction.ipynb *)
Definition FastAPI_Introduction : notebook := [
  Cell Markdown [
      "# FastAPI - Building fast and scalable REST APIs with Python";
      EmptyString;
      "From the FastAPI docs: *FastAPI is a modern, fast (high-performance), web framework for building APIs with Python 3.6+ based on standard Python type hints.*";
      EmptyString;
      "As data scientists we usually build models that are trained on data and optimised on some metrics. At some point, a model needs to be integrated into existing processes, systems and applications. One way to do this is build a microservice that is running inference. FastAPI is a framework that will help us to build a quick REST API that can be integrated into the existing enterprise landscape. " ];
  Cell Markdown [
      "## What is a REST API?";
      "If REST APIs are new to you, feel free to read this article [API Guide for Data Scientists](https://towardsdatascience.com/api-guide-for-data-scientists-e373f997ed61)." ];
  Cell Markdown [
      "## Why is FastAPI a great choice for inference?";
      "- High Performance: FastAPI sits on top of Starlette and Pydantic. Starlette is a very low level API framework. FastAPI provides a great abstraction around the Startlette Framework. Compared to other language like NodeJS and Go it provides a similar performance and is on one of the fastest Python frameworks that is available.";
      "- Huge productivity: It's very fast to code with FastAPI. In the docs they say the following: *Increase the speed to develop features by about 200% to 300%.*";
      "- Fewer bugs: Reduce about 40% of human (developer) induced errors. *";
      "- Intuitive: Great editor support. Completion everywhere. Less time debugging.";
      "- Easy: Designed to be easy to use and learn. Less time reading docs.";
      "- Short: Minimize code duplication. Multiple features from each parameter declaration. Fewer bugs.";
      "- Robust: Get production-ready code. With automatic interactive documentation.";
      "- Standards-based: Based on (and fully compatible with) the open standards for APIs: OpenAPI (previously known as Swagger) and JSON Schema." ];
  Cell Markdown [
      "## Let's jump straight into the framework" ];
  Cell Code [
      "# Installing fastapi and uvicorn to the run the application";
      "!pip install fastapi uvicorn" ];
  Cell Markdown [
      "Exercise: run the cell below open the API in the browser (localhost:7777/docs) and execute a calculation" ];
  Cell Code [
      "!uvicorn hello_world_app:app --port 7777 --host 0.0.0.0" ];
  Cell Markdown [
      "# Let's add inference" ];
  Cell Code [
      "!uvicorn main:app --port 7777 --host 0.0.0.0" ]
].

(** notebooks/airflow/airflow-introduction.ipynb *)
Definition airflow_introduction : notebook := [
  Cell Markdown [
      "# Airflow Classification Pipeline" ];
  Cell Markdown [
      "Let's have a look at some of the components that Airflow provides. Please note: Airflow DAGs are to be specified in `.py` files, not Jupyter notebooks. This notebook only serves the presentation purpose and can not be directly used in Airflow." ];
  Cell Markdown [
      "# Directed Acyclic Graph (DAG)";
      EmptyString;
      "Each Airflow pipeline has to be a directed acyclic graph (i.e. no loops, clear task dependencies).";
      "We define a DAG in the following way:";
      EmptyString;
      "```python";
      "from airflow import DAG";
      EmptyString;
      "# the default args will be passed to all tasks belonging to the DAG";
      "default_args = {";
      "    'owner': 'airflow',";
      "    'start_date': datetime(2019, 8, 1),";
      "    ...";
      "}";
      EmptyString;
      "dag = DAG(";
      "    'keras2production-pipeline',";
      "    default_args=default_args,";
      "    schedule_interval=timedelta(days=1),";
      "    ...";
      ")";
      EmptyString;
      "```";
      EmptyString;
      "DAGs need to be placed into the folder `$AIRFLOW_HOME/dags`, where `$AIRFLOW_HOME` is usually set to `/usr/local/airflow`." ];
  Cell Markdown [
      "# Operators";
      EmptyString;
      "Each pipeline consists of steps, which are called operators. Operators execute some kind of task and finish when the task is done. There are also sensors, a special type of operators, which finish when a condition is met (i.e. another task has finished or a file exists). Don't worry so much about the difference between a normal operator and a sensor, just lookup what fits your needs the best in the well-documented API.";
      EmptyString;
      "This might be the most used operator: The `PythonOperator`.";
      EmptyString;
      "```python";
      "from airflow.operators.python_operator import PythonOperator";
      EmptyString;
      "def print_sth():";
      "    print(" +:+ dq +:+ "Our slides are still there!" +:+ dq +:+ ")";
      "    ";
      "python_task = PythonOperator(";
      "    task_id=" +:+ dq +:+ "print" +:+ dq +:+ ",";
      "    python_callable=print_sth,";
      "    provide_context=False,";
      "    dag=dag";
      ")";
      EmptyString;
      "```";
      EmptyString;
      "This is an example of a sensor:";
      EmptyString;
      "```python";
      "from airflow.contrib.sensors.file_sensor import FileSensor";
      EmptyString;
      "fs_task = FileSensor(";
      "    task_id=" +:+ dq +:+ "lookup_file" +:+ dq +:+ ",";
      "    filepath=" +:+ dq +:+ "/keras2production/slides/slides.pdf" +:+ dq +:+ ",";
      "    dag=dag";
      ")";
      "```" ];
  Cell Markdown [
      "# Connecting Operators";
      EmptyString;
      "Airflow uses the bitshift operators `>>` and `<<` to connect pipeline steps together (you can also use `set_upstream()` or `set_downstream()`, but just don't...).";
      EmptyString;
      "`task1 >> task2` means: `task1` will be executed before `task2`, and vice versa for `<<`.";
      EmptyString;
      "**Tip**: Only use the `>>` to keep your code consistent and readable.";
      EmptyString;
      "Let's connect our operator and sensor that we defined above:";
      EmptyString;
      "```python";
      "fs_task >> python_task";
      "```";
      EmptyString;
      "That's it!" ];
  Cell Markdown [
      "# XCom";
      EmptyString;
      "Ideally all of our operators and sensors are independent of each other, that is: No variables, states etc. should have to be communicated between them. This allows an easy exchange of tasks. Since we cannot always avoid communication between tasks, Airflow provides the XCom (_cross-communication_) system, which follows a simple push-pull idea.";
      EmptyString;
      "You can push a variable in an operator via `xcom_push()` or the `return` statement, and pull (i.e. get) the variable in an other task by `xcom_pull()`.";
      EmptyString;
      "This is an example, how two python operators could communicate with each other via XCom:";
      EmptyString;
      "```python";
      "def foo():";
      "    x = " +:+ dq +:+ "hello world" +:+ dq;
      "    return x";
      EmptyString;
      EmptyString;
      "def bar(" +:+ "**context):";
      "    x = context[" +:+ dq +:+ "task_instance" +:+ dq +:+ "].xcom_pull(task_ids=" +:+ dq +:+ "task1" +:+ dq +:+ ")";
      "    print(x)";
      "    ";
      "    ";
      "task1 = PythonOperator(";
      "    task_id=" +:+ dq +:+ "task1" +:+ dq +:+ ",";
      "    python_callable=foo,";
      ")";
      EmptyString;
      "task2 = PythonOperator(";
      "    task_id=" +:+ dq +:+ "task2" +:+ dq +:+ ",";
      "    python_callable=bar,";
      "    provide_context=True,";
      ")";
      EmptyString;
      "task1 >> task2";
      "```";
      EmptyString;
      "**Note**: The pulling task needs to be provided with context." ];
  Cell Markdown [
      "# The web interface";
      EmptyString;
      "To monitor and manage your pipelines, Airflow offers a web interface. You can find it today at `localhost:8080`." ];
  Cell Markdown [
      "# There is so much more!";
      EmptyString;
      "Airflow has many concepts to offer, which allow a robust but flexible execution. Some highlights are:";
      "- Error and retry management";
      "- Different executors (Celery, Sequential, Local), allowing for parallel execution on multiple nodes";
      "- Integration with GCP, AWS, Azure, ...";
      EmptyString;
      "Check out the [documentation page](https://airflow.apache.org/) for more information." ];
  Cell Markdown [
      "# Run Airflow";
      "Taken from [Quick Start](https://airflow.apache.org/docs/stable/start.html):" ];
  Cell Code [
      "# install from pypi using pip";
      "!pip install apache-airflow==1.8.1" ];
  Cell Code [
      "# initialize the database";
      "!conda list werkzeug" ];
  Cell Code [
      "# start the web server, default port is 8080";
      "!airflow webserver -p 8080" ];
  Cell Code []
].

(** notebooks/dvc/dvc_introduction.ipynb *)
Definition dvc_introduction : notebook := [
  Cell Markdown [
      "# Lightweight Development Pipelines with DVC";
      EmptyString;
      "In this notebook we will highlight important elements of DVC. You can find extensive information on their [website](https://dvc.org).";
      EmptyString;
      "As a showcase we will implement a simple regression pipeline." ];
  Cell Markdown [
      "### Some Preparations";
      "We create a new directory, copy some files and change the cwd." ];
  Cell Code [
      "%%bash";
      "mkdir /workshop/workspace/dvc_intro -p";
      "cp /workshop/notebooks/dvc/{dvc_exercise.py,deployment_location,dvc_introduction.py,params.yaml} /workshop/workspace/dvc_intro";
      "cp -r /workshop/notebooks/dvc/data /workshop/workspace/dvc_intro" ];
  Cell Code [
      "import os";
      "os.chdir(" +:+ dq +:+ "/workshop/workspace/dvc_intro" +:+ dq +:+ ")" ];
  Cell Markdown [
      "### Initialize Git" ];
  Cell Markdown [
      "DVC works on top of git.." ];
  Cell Code [
      "!git init" ];
  Cell Markdown [
      "You might want to set your git configuration." ];
  Cell Code [
      "!git config --global user.email " +:+ dq +:+ "you@example.com" +:+ dq;
      "!git config --global user.name " +:+ dq +:+ "Your Name" +:+ dq ];
  Cell Markdown [
      "### Initialize DVC" ];
  Cell Code [
      "!dvc init -f" ];
  Cell Markdown [
      "We can either add files to our versioning system by manually adding them or implicitly in a pipeline." ];
  Cell Code [
      "!dvc add data/image.jpg" ];
  Cell Markdown [
      "Optional: We add a new remote storage (could be S3, GCS, SSH, ...)" ];
  Cell Code [
      "!dvc remote add -d -f local_storage /tmp/dvc_introduction" ];
  Cell Code [
      "!git status" ];
  Cell Code [
      "!git add ." ];
  Cell Code [
      "!git commit -m " +:+ dq +:+ "initial commit" +:+ dq ];
  Cell Markdown [
      "Let's check our current status. Attention: DVC does not have a sophisticated git-like `stage area`, but a cache-directory, that is being synced with the remote." ];
  Cell Code [
      "!dvc status -c" ];
  Cell Code [
      "!dvc push" ];
  Cell Markdown [
      "### Building a Pipeline" ];
  Cell Code [
      "%%sh";
      "dvc run -n download " +:+ bsl;
      " -d dvc_introduction.py " +:+ bsl;
      " -d http://archive.ics.uci.edu/ml/machine-learning-databases/wine-quality/winequality-red.csv " +:+ bsl;
      " -o data/winequality-red.csv " +:+ bsl;
      "python dvc_introduction.py download_data http://archive.ics.uci.edu/ml/machine-learning-databases/wine-quality/winequality-red.csv data/winequality-red.csv" ];
  Cell Code [
      "%%sh ";
      "dvc run -n split " +:+ bsl;
      "-d dvc_introduction.py " +:+ bsl;
      "-d data/winequality-red.csv " +:+ bsl;
      "-o data/x_train.csv -o data/y_train.csv -o data/x_test.csv -o data/y_test.csv " +:+ bsl;
      "python dvc_introduction.py split_data data/winequality-red.csv" ];
  Cell Code [
      "%%sh ";
      "dvc run -n train " +:+ bsl;
      "-d dvc_introduction.py " +:+ bsl;
      "-d data/x_train.csv -d data/y_train.csv " +:+ bsl;
      "-o data/model " +:+ bsl;
      "-p alpha,l1_ratio " +:+ bsl;
      "python dvc_introduction.py train_model data/x_train.csv data/y_train.csv" ];
  Cell Code [
      "%%sh";
      "dvc run -n evaluate " +:+ bsl;
      "-d dvc_introduction.py " +:+ bsl;
      "-d data/model -d data/x_test.csv -d data/y_test.csv " +:+ bsl;
      "-m data/result.json " +:+ bsl;
      "python dvc_introduction.py evaluate_model data/model data/x_test.csv data/y_test.csv" ];
  Cell Code [
      "!git add .";
      "!git commit -m " +:+ dq +:+ "Add pipeline" +:+ dq ];
  Cell Markdown [
      "### Inspecting and Modifying a Pipeline " ];
  Cell Code [
      "!dvc dag" ];
  Cell Code [
      "!dvc status -c" ];
  Cell Code [
      "!dvc push" ];
  Cell Code [
      "!dvc status -c" ];
  Cell Markdown [
      "Let's modify a file and reproduce our pipeline!" ];
  Cell Code [
      "!dvc status" ];
  Cell Code [
      "!dvc repro" ];
  Cell Markdown [
      "### Compare Experiments" ];
  Cell Code [
      "!sed -i -e " +:+ dq +:+ "s/alpha:" +:+ bsl +:+ "s0.5/alpha: 0.6/g" +:+ dq +:+ " params.yaml" ];
  Cell Code [
      "!dvc repro";
      "!dvc metrics diff" ];
  Cell Markdown [
      "It is also possible to compare results from different branches." ];
  Cell Code [
      "%%bash";
      "git checkout -b experiment_1";
      "git add .";
      "git commit -m " +:+ dq +:+ "changed parameter alpha" +:+ dq;
      EmptyString;
      "dvc metrics diff master experiment_1" ];
  Cell Markdown [
      "#### More Features" ];
  Cell Markdown [
      "Get a file from another (external) git+DVC repository." ];
  Cell Code [
      "!dvc get https://github.com/iterative/example-get-started model.pkl" ];
  Cell Code [
      "!rm model.pkl" ];
  Cell Markdown [
      "Get a file *including* its .dvc file from another (external) git+DVC repository." ];
  Cell Code [
      "!dvc import https://github.com/iterative/example-get-started model.pkl" ];
  Cell Code [
      "!cat model.pkl.dvc" ];
  Cell Markdown [
      "#### Clean-up" ];
  Cell Code [
      "import os";
      "os.chdir(" +:+ dq +:+ "/workshop/notebooks/dvc" +:+ dq +:+ ")" ];
  Cell Code [
      "%%sh";
      "rm -rf /workshop/workspace/dvc_intro";
      "rm -rf /tmp/dvc_introduction" ];
  Cell Code []
].

(** The notebooks of the repository, each with the path it is stored
    under or, where the path is not known, with its title. *)
Definition notebooks : list (string * notebook) := [
  ("Airflow Classification Pipeline", airflow_classification_pipeline);
  ("FastAPI - Building fast and scalable REST APIs with Python", fastapi_introduction_part);
  ("Task: Extend Kedro Pipeline", kedro_exercise);
  ("notebooks/fastapi/FastAPI_Introduction.ipynb", FastAPI_Introduction);
  ("notebooks/airflow/airflow-introduction.ipynb", airflow_introduction);
  ("notebooks/dvc/dvc_introduction.ipynb", dvc_introduction) ].

Definition code_cells (nb : notebook) : list cell :=
  filter (fun c => cell_type c = Code) nb.
Definition markdown_cells (nb : notebook) : list cell :=
  filter (fun c => cell_type c = Markdown) nb.

(** *** Cell classification

    A code cell is run by the IPython kernel.  A line starting with [!] is
    handed to the system shell; a cell whose first line is the cell magic
    [%%bash] or [%%sh] is handed to a shell as a whole; a [%%writefile]
    cell stores its body in a file; every other line that is neither blank
    nor a comment is a Python statement executed in the kernel. *)

Definition first_line (c : cell) : string := default EmptyString (head (source c)).

Definition has_cell_magic (m : string) (c : cell) : bool :=
  starts_with ("%%" +:+ m) (first_line c).

Definition is_comment_line (l : string) : bool := starts_with "#" (lstrip l).
Definition is_shell_line (l : string) : bool := starts_with "!" l.
Definition is_python_line (l : string) : bool :=
  negb (is_blank l) && negb (is_comment_line l) && negb (is_shell_line l).

Inductive code_class :=
| ShellMagic   (* a %%bash or %%sh cell *)
| ShellLines   (* every statement of the cell is a ! line *)
| WriteFile    (* a %%writefile cell *)
| NoStatement  (* no line at all, or comments only *)
| Python.      (* at least one Python statement run in the kernel *)

Global Instance code_class_eq_dec : EqDecision code_class.
Proof. solve_decision. Defined.

Definition classify (c : cell) : code_class :=
  if has_cell_magic "bash" c || has_cell_magic "sh" c then ShellMagic
  else if has_cell_magic "writefile" c then WriteFile
  else if existsb is_python_line (source c) then Python
  else if existsb is_shell_line (source c) then ShellLines
  else NoStatement.

(** A code cell whose source is a shell invocation. *)
Definition is_shell_cell (c : cell) : Prop :=
  cell_type c = Code ∧ (classify c = ShellMagic ∨ classify c = ShellLines).

(** The reading of "markdown or shell" that the workshop description gives. *)
Definition markdown_or_shell (c : cell) : Prop :=
  cell_type c = Markdown ∨ is_shell_cell c.

Definition is_python_cell (c : cell) : Prop :=
  cell_type c = Code ∧ classify c = Python.

Definition python_cells (nb : notebook) : list cell :=
  filter is_python_cell nb.

Definition class_count (k : code_class) (nb : notebook) : nat :=
  length (filter (fun c => cell_type c = Code ∧ classify c = k) nb).

(** *** Shell invocations

    [invokes cmd c]: the code cell [c] runs the command line tool [cmd],
    either on a [!] line or on a line of a [%%bash]/[%%sh] cell. *)
Definition invokes (cmd : string) (c : cell) : Prop :=
  cell_type c = Code ∧
  (Exists (fun l => starts_with ("!" +:+ cmd) l = true) (source c) ∨
   (classify c = ShellMagic ∧
    Exists (fun l => starts_with cmd (lstrip l) = true) (tail (source c)))).

Global Instance invokes_dec cmd c : Decision (invokes cmd c).
Proof. unfold invokes. apply _. Defined.

(** The shell invocations the workshop description names. *)
Definition named_invocations : list string :=
  [ "pip install"; "airflow webserver"; "dvc run"; "dvc push";
    "git commit"; "uvicorn"; "kedro run"; "kedro viz" ].

(** *** Fenced listings of a markdown cell

    [fence_marks inside ls] pairs every line with [true] when it lies
    strictly between an opening and a closing [```] line. *)
Fixpoint fence_marks (inside : bool) (ls : list string) : list (bool * string) :=
  match ls with
  | [] => []
  | l :: ls' =>
      if starts_with "```" l then (false, l) :: fence_marks (negb inside) ls'
      else (inside, l) :: fence_marks inside ls'
  end.

Definition listing_lines (c : cell) : list string :=
  snd <$> filter (fun bl => fst bl = true) (fence_marks false (source c)).
Definition prose_lines (c : cell) : list string :=
  snd <$> filter (fun bl => fst bl = false) (fence_marks false (source c)).

(** The title of a notebook: the first line of its first cell. *)
Definition title (nb : notebook) : string :=
  default EmptyString (first_line <$> head nb).
Definition is_airflow_notebook (nb : notebook) : Prop :=
  contains "Airflow" (title nb) = true.

Definition mentions (w : string) (c : cell) : Prop :=
  Exists (fun l => contains w l = true) (source c).
Definition mentions_xcom (c : cell) : Prop :=
  mentions "xcom_push" c ∨ mentions "xcom_pull" c.

(** [defines x c]: some line of [c] starts a Python definition of the
    function or class [x]. *)
Definition defines (x : string) (c : cell) : Prop :=
  Exists (fun l => starts_with ("def " +:+ x +:+ "(") (lstrip l) = true ∨
                   starts_with ("class " +:+ x +:+ "(") (lstrip l) = true ∨
                   starts_with ("class " +:+ x +:+ ":") (lstrip l) = true)
         (source c).

(** The Python text of a code cell: its lines, the [%%writefile] line left
    out.  [holds_python c]: [c] is a cell of Python statements, or writes
    a [.py] file. *)
Definition python_text (c : cell) : string :=
  join EmptyString (if has_cell_magic "writefile" c then tail (source c) else source c).

Definition holds_python (c : cell) : Prop :=
  cell_type c = Code ∧
  (classify c = Python ∨ (classify c = WriteFile ∧ ends_with ".py" (first_line c) = true)).

(** The fenced listings of a markdown cell as one text. *)
Definition listing_text (c : cell) : string := join EmptyString (listing_lines c).

(** The name a [def] line defines, if the line is one. *)
Definition def_name (l : string) : option string :=
  if starts_with "def " (lstrip l)
  then head (split_on "("%char (drop_chars 4 (lstrip l)))
  else None.

(** The functions defined with [def] in the cells of a notebook. *)
Definition defined_functions (nb : notebook) : list string :=
  omap def_name (concat (source <$> nb)).

End Nb.

(** ** The docker-compose file *)

Module Compose.
Import Text.

(** An entry of a service's [volumes:] list, in the long syntax
    ([type:], [source:], [target:]) or in the short one
    ([source:target]). *)
Inductive volume_entry :=
| Long (type source target : string)
| Short (spec : string).

Record service := Service {
  image : string;
  ports : list string;            (* "HOST:CONTAINER" *)
  volumes : list volume_entry }.

Record compose_file := ComposeFile {
  version : string;
  services : list (string * service);
  top_volumes : list string }.

Definition docker_compose : compose_file :=
  {| version := "3.7";
     services := [
       ("jupyter",
        {| image := "radtkem/from-jupyter-to-production-baseimage:latest";
           ports := [ "8888:8888"; "4141:4141"; "5000:5000"; "7777:7777" ];
           volumes := [
             Long "bind" "./notebooks" "/workshop/notebooks";
             Short "workspace:/workshop/workspace" ] |});
       ("airflow",
        {| image := "radtkem/from-jupyter-to-production-airflow-image:latest";
           ports := [ "8080:8080" ];
           volumes := [
             Long "bind" "./notebooks/airflow/dags" "/usr/local/airflow/dags";
             Long "bind" "./notebooks/airflow/exercise-dataset-airflow"
                  "/exercise-dataset-airflow";
             Short "workspace:/workshop/workspace" ] |}) ];
     top_volumes := [ "workspace" ] |}.

(** What Compose makes of the entries. *)
Inductive mount_source :=
| HostPath (path : string)
| NamedVolume (name : string).

Record mount := Mount { m_source : mount_source; m_target : string }.

Global Instance mount_source_eq_dec : EqDecision mount_source.
Proof. solve_decision. Defined.
Global Instance mount_eq_dec : EqDecision mount.
Proof. solve_decision. Defined.

(** In the short syntax a source that starts with [.], [/] or [~] is a host
    path, any other source is the name of a volume. *)
Definition is_host_path (s : string) : bool :=
  starts_with "." s || starts_with "/" s || starts_with "~" s.

Definition mount_of (v : volume_entry) : option mount :=
  match v with
  | Long ty src tgt =>
      if decide (ty = "bind") then Some (Mount (HostPath src) tgt)
      else if decide (ty = "volume") then Some (Mount (NamedVolume src) tgt)
      else None
  | Short spec =>
      match split_on ":"%char spec with
      | src :: tgt :: _ =>
          Some (Mount (if is_host_path src then HostPath src else NamedVolume src) tgt)
      | _ => None
      end
  end.

Definition mounts (s : service) : list mount := omap mount_of (volumes s).

(** A published port: host port and container port. *)
Definition port_of (p : string) : option (N * N) :=
  match split_on ":"%char p with
  | [h; c] =>
      match parse_N h, parse_N c with
      | Some h', Some c' => Some (h', c')
      | _, _ => None
      end
  | _ => None
  end.

Definition published (s : service) : list (N * N) := omap port_of (ports s).
Definition host_ports (s : service) : list N := fst <$> published s.

Definition service_named (f : compose_file) (n : string) : option service :=
  (fun r => snd (snd r)) <$> list_find (fun p => fst p = n) (services f).

(** *** Paths inside a container

    A path is the list of its components.  [resolve s p] is the mount of
    service [s] that the absolute container path [p] lies in (the mount
    with the longest target wins) and the path relative to that mount;
    [None] when [p] is in the container's own file system. *)
Definition components (p : string) : list string :=
  filter (fun c => c ≠ EmptyString) (split_on "/"%char p).

Fixpoint strip_prefix (pre p : list string) : option (list string) :=
  match pre, p with
  | [], _ => Some p
  | a :: pre', b :: p' => if decide (a = b) then strip_prefix pre' p' else None
  | _ :: _, [] => None
  end.

Definition better (cur : option (mount * list string)) (m : mount) (rel : list string)
  : option (mount * list string) :=
  match cur with
  | Some (m0, rel0) => if decide (length rel < length rel0) then Some (m, rel) else cur
  | None => Some (m, rel)
  end.

Definition resolve_in (ms : list mount) (p : list string)
  : option (mount_source * list string) :=
  (fun r => (m_source (fst r), snd r)) <$>
  foldl (fun cur m =>
           match strip_prefix (components (m_target m)) p with
           | Some rel => better cur m rel
           | None => cur
           end) None ms.

Definition resolve (s : service) (p : list string) : option (mount_source * list string) :=
  resolve_in (mounts s) p.

(** The mount point both services share. *)
Definition workspace_dir : list string := [ "workshop"; "workspace" ].

End Compose.

(** ** The Python fragments of the notebooks

    Abstract syntax for the subset of Python the notebooks use, together
    with Python's statement forms for branching and looping, which the
    notebooks turn out not to use. *)

Module Py.
Import Text.

#[local] Set Warnings "-register-all".

Inductive expr :=
| EName (x : string)
| EStr (s : string)
| EAttr (e : expr) (attr : string)
| ESubscript (e index : expr)
| ETuple (es : list expr)
| EList (es : list expr)
| EDict (items : list (expr * expr))
| EFString (parts : list expr)
| EBinOp (op : string) (l r : expr)
| ECall (f : expr) (args : list expr) (kwargs : list (string * expr)).

Inductive param_kind :=
| Plain
| VarKeyword.   (* a **kwargs parameter *)

Record param := Param {
  p_name : string;
  p_kind : param_kind;
  p_annot : option expr }.

Inductive stmt :=
| SImport (module : string) (asname : option string)
| SFrom (module : string) (names : list string)
| SDoc (text : list string)
| SAssign (target : string) (value : expr)
| SExpr (e : expr)
| SReturn (e : expr)
| SIf (cond : expr) (then_ else_ : list stmt)
| SWhile (cond : expr) (body : list stmt)
| SFor (target : string) (iter : expr) (body : list stmt)
| SDef (decorators : list expr) (name : string) (params : list param)
       (returns : option expr) (body : list stmt)
| SClass (name : string) (bases : list expr) (body : list stmt).

(** A module: the file the code is written to, or the cell it is run in. *)
Record pymodule := PyModule { file : string; code : list stmt }.

(** A function definition, with the class it is a method of. *)
Record fn := Fn {
  f_class : option string;
  f_name : string;
  f_decorators : list expr;
  f_params : list param;
  f_returns : option expr;
  f_body : list stmt }.

(** *** Syntactic functions *)

(** The callee expression of every call in [e]. *)
Fixpoint callees (e : expr) : list expr :=
  match e with
  | EName _ | EStr _ => []
  | EAttr e' _ => callees e'
  | ESubscript e' i => callees e' ++ callees i
  | ETuple es | EList es | EFString es => flat_map callees es
  | EDict items => flat_map (fun kv => callees (fst kv) ++ callees (snd kv)) items
  | EBinOp _ l r => callees l ++ callees r
  | ECall f args kwargs =>
      f :: callees f ++ flat_map callees args
        ++ flat_map (fun kv => callees (snd kv)) kwargs
  end.

(** The names [e] reads, in evaluation order. *)
Fixpoint names (e : expr) : list string :=
  match e with
  | EName x => [x]
  | EStr _ => []
  | EAttr e' _ => names e'
  | ESubscript e' i => names e' ++ names i
  | ETuple es | EList es | EFString es => flat_map names es
  | EDict items => flat_map (fun kv => names (fst kv) ++ names (snd kv)) items
  | EBinOp _ l r => names l ++ names r
  | ECall f args kwargs =>
      names f ++ flat_map names args ++ flat_map (fun kv => names (snd kv)) kwargs
  end.

(** The name an attribute chain or subscript starts from:
    [np] for [np.sqrt], [context] for [context["task_instance"].xcom_pull]. *)
Fixpoint root (e : expr) : option string :=
  match e with
  | EName x => Some x
  | EAttr e' _ | ESubscript e' _ => root e'
  | ECall f _ _ => root f
  | _ => None
  end.

(** The expressions a statement list evaluates when it runs, nested
    definitions left out (their bodies run when they are called). *)
Fixpoint stmt_exprs (s : stmt) : list expr :=
  match s with
  | SImport _ _ | SFrom _ _ | SDoc _ => []
  | SAssign _ e | SExpr e | SReturn e => [e]
  | SIf c t e => c :: flat_map stmt_exprs t ++ flat_map stmt_exprs e
  | SWhile c b => c :: flat_map stmt_exprs b
  | SFor _ it b => it :: flat_map stmt_exprs b
  | SDef _ _ _ _ _ | SClass _ _ _ => []
  end.

Definition body_exprs (b : list stmt) : list expr := flat_map stmt_exprs b.

(** [straight_line b]: no branch and no loop anywhere in [b]. *)
Fixpoint straight_stmt (s : stmt) : bool :=
  match s with
  | SIf _ _ _ | SWhile _ _ | SFor _ _ _ => false
  | SDef _ _ _ _ b | SClass _ _ b => forallb straight_stmt b
  | _ => true
  end.
Definition straight_line (b : list stmt) : bool := forallb straight_stmt b.

(** The names a statement list assigns. *)
Fixpoint assigned (s : stmt) : list string :=
  match s with
  | SAssign x _ => [x]
  | SFor x _ b => x :: flat_map assigned b
  | SIf _ t e => flat_map assigned t ++ flat_map assigned e
  | SWhile _ b => flat_map assigned b
  | _ => []
  end.

(** All function definitions of a statement list, methods included. *)
Fixpoint functions_in (cls : option string) (s : stmt) : list fn :=
  match s with
  | SDef ds n ps r b => Fn cls n ds ps r b :: flat_map (functions_in cls) b
  | SClass n _ b => flat_map (functions_in (Some n)) b
  | SIf _ t e => flat_map (functions_in cls) t ++ flat_map (functions_in cls) e
  | SWhile _ b | SFor _ _ b => flat_map (functions_in cls) b
  | _ => []
  end.
Definition functions (m : pymodule) : list fn :=
  flat_map (functions_in None) (code m).

(** The classes a module defines, each with the names its body assigns
    (its data attributes). *)
Definition classes (m : pymodule) : list (string * list string) :=
  flat_map (fun s => match s with
                     | SClass n _ b => [(n, flat_map assigned b)]
                     | _ => []
                     end) (code m).

(** *** Name binding *)

(** The top-level package of a dotted module name. *)
Definition top_package (m : string) : string :=
  default EmptyString (head (split_on "."%char m)).

(** What an import statement binds: the bound name and the module it
    comes from. *)
Definition import_bindings (s : stmt) : list (string * string) :=
  match s with
  | SImport m (Some a) => [(a, m)]
  | SImport m None => [(top_package m, m)]
  | SFrom m ns => (fun n => (n, m)) <$> ns
  | _ => []
  end.

Definition imports (m : pymodule) : list (string * string) :=
  flat_map import_bindings (code m).

(** The names bound at the top level of a module once it has run. *)
Definition defined_name (s : stmt) : list string :=
  match s with
  | SDef _ n _ _ _ | SClass n _ _ => [n]
  | SAssign x _ => [x]
  | _ => []
  end.
Definition module_names (m : pymodule) : list string :=
  (fst <$> imports m) ++ flat_map defined_name (code m).

(** The names Python binds in every module. *)
Definition builtins : list string := [ "float"; "print"; "str"; "__name__" ].

Definition locals (f : fn) : list string :=
  (p_name <$> f_params f) ++ flat_map assigned (f_body f).

(** The global names the body of [f] reads: those that are neither
    parameters nor local variables. *)
Definition global_reads (f : fn) : list string :=
  filter (fun x => x ∉ locals f) (flat_map names (body_exprs (f_body f))).

(** The names [f] reads that nothing binds when it runs in module [m]. *)
Definition unbound_names (m : pymodule) (f : fn) : list string :=
  remove_dups (filter (fun x => x ∉ module_names m ++ builtins) (global_reads f)).

(** *** Who provides a callee *)

Inductive provider :=
| Local                       (* a method of a parameter or local variable *)
| Builtin (name : string)
| Library (package : string)  (* top-level package of the providing module *)
| Own (module : string).      (* a module of the workshop project itself *)

Global Instance provider_eq_dec : EqDecision provider.
Proof. solve_decision. Defined.

(** The project's own modules: relative imports and the package
    [workflow_tutorial] that the notebook writes its files into. *)
Definition is_own_module (m : string) : bool :=
  starts_with "." m || bool_decide (top_package m = "workflow_tutorial").

Definition provider_of_module (m : string) : provider :=
  if is_own_module m then Own m else Library (top_package m).

(** [provider_of m f x]: who provides the name [x] read in function [f] of
    module [m].  A name that the module leaves unbound is taken for the
    module of that name, which is what it denotes once the function is
    placed in a file that imports it. *)
Definition provider_of (m : pymodule) (f : fn) (x : string) : provider :=
  if bool_decide (x ∈ locals f) then Local
  else match list_find (fun b => fst b = x) (imports m) with
       | Some (_, (_, src)) => provider_of_module src
       | None =>
           if bool_decide (x ∈ flat_map defined_name (code m)) then Own (file m)
           else if bool_decide (x ∈ builtins) then Builtin x
           else provider_of_module x
       end.

(** The calls of a function: callee expression and provider, decorators
    first (they are applied when the definition runs). *)
Definition calls (m : pymodule) (f : fn) : list (expr * provider) :=
  omap (fun c => (fun x => (c, provider_of m f x)) <$> root c)
       (f_decorators f ++ flat_map callees (body_exprs (f_body f))).

Definition providers (m : pymodule) (f : fn) : list provider :=
  remove_dups (snd <$> calls m f).

(** [recursive m f]: the body of [f] calls a function defined in [m]. *)
Definition calls_own_definition (m : pymodule) (f : fn) : bool :=
  existsb (fun cp => bool_decide (snd cp = Own (file m))) (calls m f).

(** *** Concrete syntax

    The text of an expression and the lines of a statement, without
    indentation; [squash] compares them with the text of a cell. *)
Fixpoint render_expr (e : expr) : string :=
  match e with
  | EName x => x
  | EStr s => dq +:+ s +:+ dq
  | EAttr e' a => render_expr e' +:+ "." +:+ a
  | ESubscript e' i => render_expr e' +:+ "[" +:+ render_expr i +:+ "]"
  | ETuple es => join ", " (map render_expr es)
  | EList es => "[" +:+ join ", " (map render_expr es) +:+ "]"
  | EDict items =>
      "{" +:+ join ", " (map (fun kv => render_expr (fst kv) +:+ ": " +:+ render_expr (snd kv))
                             items) +:+ "}"
  | EFString parts =>
      "f" +:+ dq
        +:+ join EmptyString
              (map (fun p => match p with
                             | EStr s => s
                             | _ => "{" +:+ render_expr p +:+ "}"
                             end) parts)
        +:+ dq
  | EBinOp op l r => render_expr l +:+ " " +:+ op +:+ " " +:+ render_expr r
  | ECall f args kwargs =>
      render_expr f +:+ "("
        +:+ join ", " (map render_expr args
                       ++ map (fun kv => fst kv +:+ "=" +:+ render_expr (snd kv)) kwargs)
        +:+ ")"
  end.

Definition render_param (p : param) : string :=
  (match p_kind p with Plain => EmptyString | VarKeyword => "**" end)
    +:+ p_name p
    +:+ (match p_annot p with Some t => ": " +:+ render_expr t | None => EmptyString end).

Definition triple_quote : string := dq +:+ dq +:+ dq.

Fixpoint render_stmt (s : stmt) : list string :=
  match s with
  | SImport m None => ["import " +:+ m]
  | SImport m (Some a) => ["import " +:+ m +:+ " as " +:+ a]
  | SFrom m ns => ["from " +:+ m +:+ " import " +:+ join ", " ns]
  | SDoc text => [triple_quote +:+ join EmptyString text +:+ triple_quote]
  | SAssign x e => [x +:+ " = " +:+ render_expr e]
  | SExpr e => [render_expr e]
  | SReturn e => ["return " +:+ render_expr e]
  | SIf c t e =>
      ("if " +:+ render_expr c +:+ ":") :: flat_map render_stmt t
        ++ "else:" :: flat_map render_stmt e
  | SWhile c b => ("while " +:+ render_expr c +:+ ":") :: flat_map render_stmt b
  | SFor x it b =>
      ("for " +:+ x +:+ " in " +:+ render_expr it +:+ ":") :: flat_map render_stmt b
  | SDef ds n ps r b =>
      map (fun d => "@" +:+ render_expr d) ds
        ++ ("def " +:+ n +:+ "(" +:+ join ", " (map render_param ps) +:+ ")"
              +:+ (match r with Some t => " -> " +:+ render_expr t | None => EmptyString end)
              +:+ ":")
        :: flat_map render_stmt b
  | SClass n bases b =>
      ("class " +:+ n
         +:+ (match bases with
              | [] => EmptyString
              | _ => "(" +:+ join ", " (map render_expr bases) +:+ ")"
              end) +:+ ":")
        :: flat_map render_stmt b
  end.

Definition render (m : pymodule) : string :=
  join EmptyString (flat_map render_stmt (code m)).

(** *** The code of the Kedro exercise notebook *)

(** The first code cell: it changes the kernel's working directory. *)
Definition chdir_cell (dir : string) : pymodule :=
  PyModule "<cell>" [
    SImport "os" None;
    SExpr (ECall (EAttr (EName "os") "chdir") [EStr dir] []) ].

Definition kedro_chdir_cell : pymodule :=
  chdir_cell "/workshop/workspace/workflow-tutorial".

(** The cell that defines [evaluate_model]. *)
Definition evaluate_model_cell : pymodule :=
  PyModule "<cell>" [
    SFrom "typing" ["Dict"];
    SImport "numpy" (Some "np");
    SFrom "sklearn.pipeline" ["Pipeline"];
    SFrom "sklearn.metrics" ["mean_squared_error"; "mean_absolute_error"; "r2_score"];
    SDef [] "evaluate_model"
      [ Param "pipe" Plain (Some (EName "Pipeline"));
        Param "x_test" Plain (Some (EAttr (EName "np") "ndarray"));
        Param "y_test" Plain (Some (EAttr (EName "np") "ndarray")) ]
      (Some (EName "Dict"))
      [ SDoc [ "Calculate the coefficient of determination and log the result.";
               EmptyString;
               "Args:";
               "pipe: Trained model.";
               "X_test: Testing data of independent features.";
               "y_test: Target.";
               "Returns:";
               "json with scores";
               EmptyString ];
        SAssign "y_pred" (ECall (EAttr (EName "pipe") "predict") [EName "x_test"] []);
        SAssign "rmse"
          (ECall (EAttr (EName "np") "sqrt")
             [ECall (EName "mean_squared_error") [EName "y_test"; EName "y_pred"] []] []);
        SAssign "mae" (ECall (EName "mean_absolute_error") [EName "y_test"; EName "y_pred"] []);
        SAssign "r2" (ECall (EName "r2_score") [EName "y_test"; EName "y_pred"] []);
        SExpr (ECall (EAttr (EName "mlflow") "log_metric") [EStr "rmse"; EName "rmse"] []);
        SExpr (ECall (EAttr (EName "mlflow") "log_metric") [EStr "mae"; EName "mae"] []);
        SExpr (ECall (EAttr (EName "mlflow") "log_metric") [EStr "r2"; EName "r2"] []);
        SAssign "logger" (ECall (EAttr (EName "logging") "getLogger") [EName "__name__"] []);
        SExpr (ECall (EAttr (EName "logger") "info")
                 [EStr "Model has a coefficient R^2 of %.3f."; EName "r2"] []);
        SReturn
          (EDict [ (EStr "train",
                    EDict [ (EStr "rmse", ECall (EName "float") [EName "rmse"] []);
                            (EStr "mae", ECall (EName "float") [EName "mae"] []);
                            (EStr "r2", ECall (EName "float") [EName "r2"] []) ]) ]) ] ].

(** A Kedro node as the notebooks write it: [node(func=.., inputs=..,
    outputs=.., name=..)]. *)
Definition node_call (func : string) (inputs outputs : expr) (name : string) : expr :=
  ECall (EName "node") []
    [ ("func", EName func); ("inputs", inputs); ("outputs", outputs);
      ("name", EStr name) ].

Definition strs (l : list string) : expr := EList (EStr <$> l).

Definition pipeline_def (fname : string) (nodes : list expr) : stmt :=
  SDef [] fname [ Param "kwargs" VarKeyword None ] None
    [ SReturn (ECall (EName "Pipeline") [EList nodes] []) ].

(** [pipeline.py] as the first [%%writefile] cell writes it. *)
Definition pipeline_py_1 : pymodule :=
  PyModule "src/workflow_tutorial/pipelines/pipeline.py" [
    SFrom "kedro.pipeline" ["Pipeline"; "node"];
    SFrom ".nodes" ["evaluate_model"; "split_data"; "train_model"];
    pipeline_def "create_pipeline" [
      node_call "split_data"
        (strs ["wines-red"; "parameters"])
        (strs ["x_train"; "x_test"; "y_train"; "y_test"])
        "splitting_data";
      node_call "train_model"
        (strs ["x_train"; "y_train"; "parameters"])
        (EStr "model")
        "training_model";
      node_call "evaluate_model"
        (strs ["model"; "x_test"; "y_test"])
        (EStr "evaluation_metric")
        "evaluating_model" ] ].

(** The cell that defines [download_data]. *)
Definition download_data_cell : pymodule :=
  PyModule "<cell>" [
    SImport "pandas" (Some "pd");
    SDef [] "download_data"
      [ Param "url" Plain (Some (EName "str")) ]
      (Some (EAttr (EName "pd") "DataFrame"))
      [ SDoc [ "Download data from url to path";
               "Args:";
               "url: source";
               "Returns: pandas DataFrame" ];
        SAssign "data" (ECall (EAttr (EName "pd") "read_csv") [EName "url"] [("sep", EStr ";")]);
        SAssign "logger" (ECall (EAttr (EName "logging") "getLogger") [EName "__name__"] []);
        SExpr (ECall (EAttr (EName "logger") "info")
                 [EFString [EStr "Data downloaded from "; EName "url"]] []);
        SReturn (EName "data") ] ].

(** [pipeline.py] as the second [%%writefile] cell writes it. *)
Definition pipeline_py_2 : pymodule :=
  PyModule "src/workflow_tutorial/pipelines/pipeline.py" [
    SFrom "kedro.pipeline" ["Pipeline"; "node"];
    SFrom ".nodes" ["evaluate_model"; "split_data"; "train_model"; "download_data"];
    pipeline_def "create_red_wine_pipeline" [
      node_call "split_data"
        (strs ["wines-red"; "parameters"])
        (strs ["x_train_red"; "x_test_red"; "y_train_red"; "y_test_red"])
        "splitting_red_wine_data";
      node_call "train_model"
        (strs ["x_train_red"; "y_train_red"; "parameters"])
        (EStr "model_red")
        "training_red_wine_model";
      node_call "evaluate_model"
        (strs ["model_red"; "x_test_red"; "y_test_red"])
        (EStr "evaluation_metrics_red")
        "evaluating_red_wine_model" ];
    pipeline_def "create_white_wine_pipeline" [
      node_call "download_data"
        (strs ["params:white_wine_data_url"])
        (EStr "wines-white")
        "download_white_wine_data";
      node_call "split_data"
        (strs ["wines-white"; "parameters"])
        (strs ["x_train_white"; "x_test_white"; "y_train_white"; "y_test_white"])
        "splitting_white_wine_data";
      node_call "train_model"
        (strs ["x_train_white"; "y_train_white"; "parameters"])
        (EStr "model_white")
        "training_white_wine_model";
      node_call "evaluate_model"
        (strs ["model_white"; "x_test_white"; "y_test_white"])
        (EStr "evaluation_metrics_white")
        "evaluating_white_wine_model" ] ].

Definition dict_of (k v : expr) : expr := ESubscript (EName "Dict") (ETuple [k; v]).
Definition str_any_dict : expr := dict_of (EName "str") (EName "Any").

(** [hooks.py] as its [%%writefile] cell writes it. *)
Definition hooks_py : pymodule :=
  PyModule "src/workflow_tutorial/hooks.py" [
    SDoc ["Project hooks."];
    SFrom "typing" ["Any"; "Dict"; "Iterable"; "Optional"];
    SFrom "kedro.config" ["ConfigLoader"];
    SFrom "kedro.framework.hooks" ["hook_impl"];
    SFrom "kedro.io" ["DataCatalog"];
    SFrom "kedro.pipeline" ["Pipeline"];
    SFrom "kedro.versioning" ["Journal"];
    SFrom "workflow_tutorial.pipelines" ["pipeline"];
    SClass "ProjectHooks" [] [
      SDef [EName "hook_impl"] "register_pipelines"
        [ Param "self" Plain None ]
        (Some (dict_of (EName "str") (EName "Pipeline")))
        [ SDoc [ "Register the project's pipeline.";
                 EmptyString;
                 "Returns:";
                 "A mapping from a pipeline name to a ``Pipeline`` object.";
                 EmptyString ];
          SAssign "red_wine_pipeline"
            (ECall (EAttr (EName "pipeline") "create_red_wine_pipeline") [] []);
          SAssign "white_wine_pipeline"
            (ECall (EAttr (EName "pipeline") "create_white_wine_pipeline") [] []);
          SReturn
            (EDict [ (EStr "red", EName "red_wine_pipeline");
                     (EStr "white", EName "white_wine_pipeline");
                     (EStr "__default__",
                      EBinOp "+" (EName "red_wine_pipeline") (EName "white_wine_pipeline")) ]) ];
      SDef [EName "hook_impl"] "register_config_loader"
        [ Param "self" Plain None;
          Param "conf_paths" Plain (Some (ESubscript (EName "Iterable") (EName "str"))) ]
        (Some (EName "ConfigLoader"))
        [ SReturn (ECall (EName "ConfigLoader") [EName "conf_paths"] []) ];
      SDef [EName "hook_impl"] "register_catalog"
        [ Param "self" Plain None;
          Param "catalog" Plain
            (Some (ESubscript (EName "Optional") (dict_of (EName "str") str_any_dict)));
          Param "credentials" Plain (Some (dict_of (EName "str") str_any_dict));
          Param "load_versions" Plain (Some (dict_of (EName "str") (EName "str")));
          Param "save_version" Plain (Some (EName "str"));
          Param "journal" Plain (Some (EName "Journal")) ]
        (Some (EName "DataCatalog"))
        [ SReturn
            (ECall (EAttr (EName "DataCatalog") "from_config")
               [ EName "catalog"; EName "credentials"; EName "load_versions";
                 EName "save_version"; EName "journal" ] []) ] ];
    SAssign "project_hooks" (ECall (EName "ProjectHooks") [] []) ].

(** The Python of the code cells of the Kedro exercise, in cell order. *)
Definition kedro_modules : list pymodule :=
  [ kedro_chdir_cell; evaluate_model_cell; pipeline_py_1; download_data_cell;
    pipeline_py_2; hooks_py ].

(** The two code cells of the DVC notebook that change the working directory. *)
Definition dvc_modules : list pymodule :=
  [ chdir_cell "/workshop/workspace/dvc_intro"; chdir_cell "/workshop/notebooks/dvc" ].

(** *** The listings of the Airflow notebooks

    The fenced listings of the markdown cells "Operators", "Connecting
    Operators" and "XCom".  The two Airflow notebooks show the same
    listings but for the path of the slides.  (The listing of the cell
    "Directed Acyclic Graph" elides parts of its code with [...]; it
    defines no function and is left out.) *)
Definition operator (cls : string) (kwargs : list (string * expr)) : expr :=
  ECall (EName cls) [] kwargs.

Definition operators_listing (slides : string) : pymodule :=
  PyModule "<listing>" [
    SFrom "airflow.operators.python_operator" ["PythonOperator"];
    SDef [] "print_sth" [] None
      [ SExpr (ECall (EName "print") [EStr "Our slides are still there!"] []) ];
    SAssign "python_task"
      (operator "PythonOperator"
         [ ("task_id", EStr "print"); ("python_callable", EName "print_sth");
           ("provide_context", EName "False"); ("dag", EName "dag") ]);
    SFrom "airflow.contrib.sensors.file_sensor" ["FileSensor"];
    SAssign "fs_task"
      (operator "FileSensor"
         [ ("task_id", EStr "lookup_file"); ("filepath", EStr slides);
           ("dag", EName "dag") ]) ].

Definition connecting_listing : pymodule :=
  PyModule "<listing>" [
    SExpr (EBinOp ">>" (EName "fs_task") (EName "python_task")) ].

Definition xcom_listing : pymodule :=
  PyModule "<listing>" [
    SDef [] "foo" [] None
      [ SAssign "x" (EStr "hello world");
        SReturn (EName "x") ];
    SDef [] "bar" [ Param "context" VarKeyword None ] None
      [ SAssign "x"
          (ECall (EAttr (ESubscript (EName "context") (EStr "task_instance")) "xcom_pull")
             [] [("task_ids", EStr "task1")]);
        SExpr (ECall (EName "print") [EName "x"] []) ];
    SAssign "task1"
      (operator "PythonOperator"
         [ ("task_id", EStr "task1"); ("python_callable", EName "foo") ]);
    SAssign "task2"
      (operator "PythonOperator"
         [ ("task_id", EStr "task2"); ("python_callable", EName "bar");
           ("provide_context", EName "True") ]);
    SExpr (EBinOp ">>" (EName "task1") (EName "task2")) ].

Definition listings_with (slides : string) : list pymodule :=
  [ operators_listing slides; connecting_listing; xcom_listing ].

(** The listings of notebooks/airflow/airflow-introduction.ipynb and of the
    Airflow presentation notebook. *)
Definition airflow_listings : list pymodule :=
  listings_with "/keras2production/slides/slides.pdf".
Definition presentation_listings : list pymodule :=
  listings_with "/jupyter2production/slides/slides.pdf".

(** The orderings [a >> b] among the statements of a module. *)
Definition module_orderings (m : pymodule) : list (string * string) :=
  flat_map (fun s => match s with
                     | SExpr (EBinOp op (EName a) (EName b)) =>
                         if decide (op = ">>") then [(a, b)] else []
                     | _ => []
                     end) (code m).

(** Every function the notebooks define, with the module it is in. *)
Definition functions_of (ms : list pymodule) : list (pymodule * fn) :=
  flat_map (fun m => (fun f => (m, f)) <$> functions m) ms.

Definition repository_functions : list (pymodule * fn) :=
  functions_of (kedro_modules ++ airflow_listings).

(** *** Kedro pipelines

    The nodes of the [Pipeline([...])] a function returns. *)
Record kedro_node := KedroNode {
  k_func : string;
  k_inputs : list string;
  k_outputs : list string;
  k_name : string }.

Global Instance kedro_node_eq_dec : EqDecision kedro_node.
Proof. solve_decision. Defined.

(** [inputs] and [outputs] are a dataset name or a list of them. *)
Definition dataset_names (e : expr) : list string :=
  match e with
  | EStr s => [s]
  | EList es => omap (fun x => match x with EStr s => Some s | _ => None end) es
  | _ => []
  end.

Definition kwarg (k : string) (kwargs : list (string * expr)) : option expr :=
  snd <$> (snd <$> list_find (fun kv => fst kv = k) kwargs).

Definition kedro_node_of (e : expr) : option kedro_node :=
  match e with
  | ECall (EName "node") [] kw =>
      match kwarg "func" kw, kwarg "inputs" kw, kwarg "outputs" kw, kwarg "name" kw with
      | Some (EName f), Some i, Some o, Some (EStr n) =>
          Some (KedroNode f (dataset_names i) (dataset_names o) n)
      | _, _, _, _ => None
      end
  | _ => None
  end.

Definition pipeline_nodes (f : fn) : list kedro_node :=
  flat_map (fun s => match s with
                     | SReturn (ECall (EName "Pipeline") [EList ns] []) => omap kedro_node_of ns
                     | _ => []
                     end) (f_body f).

Definition function_named (m : pymodule) (n : string) : option fn :=
  snd <$> list_find (fun f => f_name f = n) (functions m).

Definition pipeline_of (m : pymodule) (n : string) : list kedro_node :=
  default [] (pipeline_nodes <$> function_named m n).

Definition create_pipeline : list kedro_node := pipeline_of pipeline_py_1 "create_pipeline".
Definition create_red_wine_pipeline : list kedro_node :=
  pipeline_of pipeline_py_2 "create_red_wine_pipeline".
Definition create_white_wine_pipeline : list kedro_node :=
  pipeline_of pipeline_py_2 "create_white_wine_pipeline".

(** [register_pipelines]: the pipelines by name; [+] on pipelines joins
    their nodes. *)
Definition register_pipelines : list (string * list kedro_node) :=
  let red_wine_pipeline := create_red_wine_pipeline in
  let white_wine_pipeline := create_white_wine_pipeline in
  [ ("red", red_wine_pipeline);
    ("white", white_wine_pipeline);
    ("__default__", red_wine_pipeline ++ white_wine_pipeline) ].

End Py.

(** ** Dependency structures: DVC stages, Kedro pipelines, Airflow orderings *)

Module Deps.
Import Text Nb Py.

(** *** DVC stages

    A stage as [dvc run] declares it: [-n] name, [-d] dependencies, [-o]
    outputs, [-m] metrics files, [-p] parameters, then the command. *)
Record stage := Stage {
  s_name : string;
  s_deps : list string;
  s_outs : list string;
  s_metrics : list string;
  s_params : list string;
  s_cmd : list string }.

Global Instance stage_eq_dec : EqDecision stage.
Proof. solve_decision. Defined.

Definition empty_stage : stage := Stage EmptyString [] [] [] [] [].

(** The words of a [%%bash]/[%%sh] cell after its magic line; a lone
    backslash continues the line and is dropped. *)
Definition shell_words (c : cell) : list string :=
  filter (fun w => w ≠ bsl) (flat_map String.words (tail (source c))).

Fixpoint parse_run (ws : list string) (st : stage) : stage :=
  match ws with
  | o :: v :: r =>
      if decide (o = "-n") then
        parse_run r (Stage v (s_deps st) (s_outs st) (s_metrics st) (s_params st) (s_cmd st))
      else if decide (o = "-d") then
        parse_run r (Stage (s_name st) (s_deps st ++ [v]) (s_outs st) (s_metrics st)
                           (s_params st) (s_cmd st))
      else if decide (o = "-o") then
        parse_run r (Stage (s_name st) (s_deps st) (s_outs st ++ [v]) (s_metrics st)
                           (s_params st) (s_cmd st))
      else if decide (o = "-m") then
        parse_run r (Stage (s_name st) (s_deps st) (s_outs st) (s_metrics st ++ [v])
                           (s_params st) (s_cmd st))
      else if decide (o = "-p") then
        parse_run r (Stage (s_name st) (s_deps st) (s_outs st) (s_metrics st)
                           (s_params st ++ [v]) (s_cmd st))
      else Stage (s_name st) (s_deps st) (s_outs st) (s_metrics st) (s_params st) ws
  | _ => Stage (s_name st) (s_deps st) (s_outs st) (s_metrics st) (s_params st) ws
  end.

Definition stage_of (c : cell) : option stage :=
  if bool_decide (cell_type c = Code ∧ classify c = ShellMagic) then
    match shell_words c with
    | d :: r :: ws =>
        if bool_decide (d = "dvc" ∧ r = "run") then Some (parse_run ws empty_stage) else None
    | _ => None
    end
  else None.

Definition dvc_stages (nb : notebook) : list stage := omap stage_of nb.

(** What a stage writes: its outputs and its metrics files. *)
Definition stage_writes (s : stage) : list string := s_outs s ++ s_metrics s.

(** *** Airflow orderings

    The lines [a >> b] of the fenced listings of a notebook. *)
Definition ordering_of (l : string) : option (string * string) :=
  match String.words l with
  | [a; op; b] => if decide (op = ">>") then Some (a, b) else None
  | _ => None
  end.

Definition orderings (nb : notebook) : list (string * string) :=
  omap ordering_of (flat_map listing_lines (markdown_cells nb)).

(** *** Graphs *)

(** [feeds produces consumes a b]: something [a] produces is consumed by [b]. *)
Definition feeds {A} (produces consumes : A -> list string) (a b : A) : Prop :=
  Exists (fun f => f ∈ consumes b) (produces a).

(** The dependency relation among the members of [l]. *)
Definition dataflow {A} (produces consumes : A -> list string) (l : list A)
  (a b : A) : Prop :=
  a ∈ l ∧ b ∈ l ∧ feeds produces consumes a b.

(** The relation a list of ordered pairs denotes. *)
Definition pairs {A} (E : list (A * A)) (a b : A) : Prop := (a, b) ∈ E.

(** A relation is acyclic when no element reaches itself in one or more steps. *)
Definition acyclic {A} (edge : A -> A -> Prop) : Prop :=
  forall a, ¬ tc edge a a.

(** The position of the first occurrence of [a] in [l] ([length l] if none). *)
Definition position {A} `{EqDecision A} (l : list A) (a : A) : nat :=
  default (length l) (fst <$> list_find (fun x => x = a) l).

(** Every dependency among the members of [l] points forward in [l]. *)
Definition forward {A} `{EqDecision A} (produces consumes : A -> list string)
  (l : list A) : Prop :=
  Forall (fun a =>
    Forall (fun b => feeds produces consumes a b -> position l a < position l b) l) l.

Definition forward_pairs {A} `{EqDecision A} (order : list A) (E : list (A * A)) : Prop :=
  Forall (fun e => position order (fst e) < position order (snd e)) E.

(** The dependencies of a list as pairs of names. *)
Definition edge_names {A} (name : A -> string) (produces consumes : A -> list string)
  (l : list A) : list (string * string) :=
  flat_map (fun a =>
    omap (fun b => if decide (feeds produces consumes a b)
                   then Some (name a, name b) else None) l) l.

Global Instance feeds_dec {A} (produces consumes : A -> list string) a b :
  Decision (feeds produces consumes a b).
Proof. unfold feeds. apply _. Defined.

Global Instance forward_dec {A} `{EqDecision A} (produces consumes : A -> list string) l :
  Decision (forward produces consumes l).
Proof. unfold forward. apply _. Defined.

Global Instance forward_pairs_dec {A} `{EqDecision A} (order : list A) E :
  Decision (forward_pairs order E).
Proof. unfold forward_pairs. apply _. Defined.

(** The tasks an ordering mentions, in the order they are first named. *)
Definition tasks (E : list (string * string)) : list string :=
  remove_dups (flat_map (fun e => [fst e; snd e]) E).

Definition dvc_edge (l : list stage) : stage -> stage -> Prop :=
  dataflow stage_writes s_deps l.
Definition kedro_edge (l : list kedro_node) : kedro_node -> kedro_node -> Prop :=
  dataflow k_outputs k_inputs l.

End Deps.

(** ** Paths of the shared workspace that the notebooks use *)

Module Workspace.
Import Text Nb Compose.

(** The words of a line, quotes and parentheses taken as separators. *)
Fixpoint unquote (s : string) : string :=
  match s with
  | EmptyString => EmptyString
  | String a s' =>
      String (if bool_decide (a ∈ [ascii_of_nat 34; "("; ")"; "'"]%char) then " "%char else a)
             (unquote s')
  end.

(** Commas taken as separators, as between the names of an import. *)
Fixpoint unquote_commas (s : string) : string :=
  match s with
  | EmptyString => EmptyString
  | String a s' => String (if decide (a = ","%char) then " "%char else a) (unquote_commas s')
  end.

Definition path_words (l : string) : list string := String.words (unquote l).

(** The absolute paths below [/workshop/workspace] named in code cells. *)
Definition workspace_paths (nb : notebook) : list string :=
  remove_dups
    (filter (fun w => starts_with "/workshop/workspace" w = true)
            (flat_map path_words (flat_map source (code_cells nb)))).

Definition used_paths : list string :=
  remove_dups (flat_map (fun p => workspace_paths (snd p)) notebooks).

End Workspace.

(** ** Running [evaluate_model]

    The function body as a program over the world outside it: every call
    into a library may return a value or raise, and may change the world
    (the MLflow tracking store, the log handlers).  Reading a global name
    that the module does not bind raises [NameError]. *)

Module Kernel.
Import Text Py.

Inductive exn :=
| NameError (name : string)   (* name '...' is not defined *)
| Raised (kind : string).     (* raised inside a library call *)

Inductive outcome (A : Type) :=
| Returned (a : A)
| Threw (e : exn).
Arguments Returned {A} a.
Arguments Threw {A} e.

Global Instance exn_eq_dec : EqDecision exn.
Proof. solve_decision. Defined.

(** A computation over the world [W]. *)
Definition run (W A : Type) : Type := W -> outcome A * W.

Global Instance run_ret W : MRet (run W) := fun A a w => (Returned a, w).
Global Instance run_bind W : MBind (run W) := fun A B f m w =>
  match m w with
  | (Returned a, w') => f a w'
  | (Threw e, w') => (Threw e, w')
  end.

Definition raise {W A} (e : exn) : run W A := fun w => (Threw e, w).

(** The global namespace a function runs in: the names its module binds
    and the module's [__name__]. *)
Record namespace := Namespace {
  bound : gset string;
  dunder_name : string }.

Definition builtin_names : gset string := list_to_set builtins.

(** Reading the global name [x]. *)
Definition read {W} (G : namespace) (x : string) : run W unit :=
  if decide (x ∈ bound G ∪ builtin_names) then mret () else raise (NameError x).

(** The library calls of the body.  [O] are Python objects (the model, the
    arrays, the logger), [F] the floating point numbers. *)
Record externals (O F W : Type) := Externals {
  predict : O -> O -> run W O;                (* pipe.predict(x) *)
  mean_squared_error : O -> O -> run W F;     (* sklearn.metrics *)
  mean_absolute_error : O -> O -> run W F;
  r2_score : O -> O -> run W F;
  sqrt : F -> run W F;                        (* np.sqrt *)
  log_metric : string -> F -> run W unit;     (* mlflow.log_metric(key, value) *)
  getLogger : string -> run W O;              (* logging.getLogger(name) *)
  info : O -> string -> F -> run W unit }.    (* logger.info(msg, arg) *)
Arguments predict {O F W}.
Arguments mean_squared_error {O F W}.
Arguments mean_absolute_error {O F W}.
Arguments r2_score {O F W}.
Arguments sqrt {O F W}.
Arguments log_metric {O F W}.
Arguments getLogger {O F W}.
Arguments info {O F W}.

(** Python's [float(x)] of a number that already is a float (a Python
    float or a numpy.float64) is the Python float of the same value. *)
Definition float {F} (x : F) : F := x.

Section Body.
Context {O F W : Type}.

Definition evaluate_model (G : namespace) (E : externals O F W)
  (pipe x_test y_test : O) : run W (gmap string (gmap string F)) :=
  (* y_pred = pipe.predict(x_test) *)
  y_pred ← predict E pipe x_test;
  (* rmse = np.sqrt(mean_squared_error(y_test, y_pred)) *)
  read G "np";;
  read G "mean_squared_error";;
  mse ← mean_squared_error E y_test y_pred;
  rmse ← sqrt E mse;
  (* mae = mean_absolute_error(y_test, y_pred) *)
  read G "mean_absolute_error";;
  mae ← mean_absolute_error E y_test y_pred;
  (* r2 = r2_score(y_test, y_pred) *)
  read G "r2_score";;
  r2 ← r2_score E y_test y_pred;
  (* mlflow.log_metric("rmse", rmse) and so on *)
  read G "mlflow";;
  log_metric E "rmse" rmse;;
  read G "mlflow";;
  log_metric E "mae" mae;;
  read G "mlflow";;
  log_metric E "r2" r2;;
  (* logger = logging.getLogger(__name__) *)
  read G "logging";;
  read G "__name__";;
  logger ← getLogger E (dunder_name G);
  (* logger.info("Model has a coefficient R^2 of %.3f.", r2) *)
  info E logger "Model has a coefficient R^2 of %.3f." r2;;
  (* return {"train": {"rmse": float(rmse), "mae": float(mae), "r2": float(r2)}} *)
  read G "float";;
  read G "float";;
  read G "float";;
  mret {[ "train" := {[ "rmse" := float rmse; "mae" := float mae; "r2" := float r2 ]} ]}.

(** The call [pipe.predict] and the sklearn and numpy calls return: from
    world [w] they leave [y_pred], [rmse], [mae], [r2] and world [w']. *)
Definition metrics_return (E : externals O F W) (pipe x_test y_test : O)
  (w : W) (rmse mae r2 : F) (w' : W) : Prop :=
  exists y_pred mse w1 w2 w3 w4,
    predict E pipe x_test w = (Returned y_pred, w1) ∧
    mean_squared_error E y_test y_pred w1 = (Returned mse, w2) ∧
    sqrt E mse w2 = (Returned rmse, w3) ∧
    mean_absolute_error E y_test y_pred w3 = (Returned mae, w4) ∧
    r2_score E y_test y_pred w4 = (Returned r2, w').

(** The mlflow and logging calls return: from world [w] they leave [w']. *)
Definition tracking_returns (E : externals O F W) (name : string)
  (rmse mae r2 : F) (w w' : W) : Prop :=
  exists logger w1 w2 w3 w4,
    log_metric E "rmse" rmse w = (Returned (), w1) ∧
    log_metric E "mae" mae w1 = (Returned (), w2) ∧
    log_metric E "r2" r2 w2 = (Returned (), w3) ∧
    getLogger E name w3 = (Returned logger, w4) ∧
    info E logger "Model has a coefficient R^2 of %.3f." r2 w4 = (Returned (), w').

End Body.

(** The global names the body of [evaluate_model] reads. *)
Definition names_read : gset string :=
  {[ "np"; "mean_squared_error"; "mean_absolute_error"; "r2_score";
     "mlflow"; "logging" ]}.

(** The namespace of the kernel when the exercise cell has run: the names
    bound by the notebook's code cells up to and including it. *)
Definition exercise_namespace : namespace :=
  {| bound := list_to_set (module_names kedro_chdir_cell ++ module_names evaluate_model_cell);
     dunder_name := "__main__" |}.

(** *** A concrete world

    Objects and numbers are naturals, the world is the list of what was
    logged so far.  [fitted] tells whether [predict] works on a model. *)
Inductive logged :=
| Metric (key : string) (value : nat)
| Info (msg : string) (arg : nat).

Definition toy (fitted : nat -> bool) (tracking_up : bool) : externals nat nat (list logged) :=
  {| predict := fun pipe x w =>
       if fitted pipe then (Returned (pipe + x), w) else (Threw (Raised "NotFittedError"), w);
     mean_squared_error := fun y y' w => (Returned ((y - y') * (y - y') + (y' - y) * (y' - y)), w);
     mean_absolute_error := fun y y' w => (Returned ((y - y') + (y' - y)), w);
     r2_score := fun y y' w => (Returned (if decide (y = y') then 1 else 0), w);
     sqrt := fun v w => (Returned (Nat.sqrt v), w);
     log_metric := fun k v w =>
       if tracking_up then (Returned (), w ++ [Metric k v])
       else (Threw (Raised "MlflowException"), w);
     getLogger := fun _ w => (Returned 0, w);
     info := fun _ msg v w => (Returned (), w ++ [Info msg v]) |}.

(** A namespace in which every name the body reads is bound, as in a
    [nodes.py] that imports them. *)
Definition nodes_namespace : namespace :=
  {| bound := names_read ∪ bound exercise_namespace;
     dunder_name := "workflow_tutorial.pipelines.nodes" |}.

End Kernel.

(** ** Statements about the cells *)

Module Statements.
Import Text Nb Compose Py Deps Workspace Kernel.

(** The source of a cell that only changes the working directory. *)
Definition chdir_source (dir : string) : list string :=
  [ "import os"; "os.chdir(" +:+ dq +:+ dir +:+ dq +:+ ")" ].

Definition dvc_chdir_cell : cell := Cell Code (chdir_source "/workshop/workspace/dvc_intro").

(** What a Python cell of the notebooks is: a cell that changes the working
    directory, or the definition of one function. *)
Definition python_cell_kind (c : cell) : Prop :=
  Exists (fun dir => source c = chdir_source dir)
         [ "/workshop/workspace/workflow-tutorial";
           "/workshop/workspace/dvc_intro";
           "/workshop/notebooks/dvc" ] ∨
  defined_functions [c] = ["evaluate_model"] ∨
  defined_functions [c] = ["download_data"].

Definition all_python_cells : list cell :=
  flat_map (fun p => python_cells (snd p)) notebooks.

(** The import line that binds Kedro's constructors. *)
Definition kedro_import : string := "from kedro.pipeline import Pipeline, node".

(** [constructs c]: a line of [c] calls [Pipeline(..)] or [node(..)]. *)
Definition constructs (c : cell) : Prop := mentions "Pipeline(" c ∨ mentions "node(" c.

(** The lines of [c] that import the name [x]. *)
Definition import_lines (x : string) (c : cell) : list string :=
  filter (fun l => (starts_with "from " l = true ∨ starts_with "import " l = true) ∧
                   x ∈ String.words (unquote_commas l))
         (source c).

(** The calls of [Pipeline] and [node] in a function. *)
Definition constructor_calls (m : pymodule) (f : fn) : list (expr * provider) :=
  filter (fun cp => root (fst cp) = Some "Pipeline" ∨ root (fst cp) = Some "node") (calls m f).

(** The lines of a notebook that mention XCom's operations, split into those
    inside fenced listings and those in the prose. *)
Definition xcom_line (l : string) : Prop :=
  contains "xcom_push" l = true ∨ contains "xcom_pull" l = true.
Definition xcom_in_listings (nb : notebook) : list string :=
  filter xcom_line (flat_map listing_lines nb).
Definition xcom_in_prose (nb : notebook) : list string :=
  filter xcom_line (flat_map prose_lines nb).

Definition xcom_sentence : string :=
  "You can push a variable in an operator via `xcom_push()` or the `return` statement, and pull (i.e. get) the variable in an other task by `xcom_pull()`.".
Definition xcom_pull_line : string :=
  "    x = context[" +:+ dq +:+ "task_instance" +:+ dq +:+ "].xcom_pull(task_ids="
    +:+ dq +:+ "task1" +:+ dq +:+ ")".

(** The third-party libraries the workshop description lists. *)
Definition third_party : list string := [ "sklearn"; "numpy"; "pandas"; "mlflow"; "kedro" ].

(** A callee that a listed third-party library provides, or a method of an
    object the function received from its caller or from such a call. *)
Definition from_third_party (p : provider) : Prop :=
  p = Local ∨ Exists (fun pkg => p = Library pkg) third_party.

Definition composes_third_party (mf : pymodule * fn) : Prop :=
  Forall (fun cp => from_third_party (snd cp)) (calls (fst mf) (snd mf)).

(** The providers the functions of the notebooks do call. *)
Definition external_provider (p : provider) : Prop :=
  from_third_party p ∨ p = Library "logging" ∨ p = Builtin "float" ∨ p = Builtin "print".

(** The calls of [f] into the project's own modules: the attribute called. *)
Definition own_calls (mf : pymodule * fn) : list string :=
  omap (fun cp => match cp with
                  | (EAttr _ a, Own _) => Some a
                  | (EName a, Own _) => Some a
                  | _ => None
                  end) (calls (fst mf) (snd mf)).

Definition is_own (p : provider) : bool :=
  match p with Own _ => true | _ => false end.

End Statements.

(** ** Files the notebooks write

    The state of a kernel session as far as the cells of Python and the
    [%%writefile] cells shape it: the working directory and the content of
    the files written.  A cell whose Python calls [os.chdir] changes the
    directory; a [%%writefile] cell replaces the content of its file. *)

Module Files.
Import Text Nb.

Record session := Session {
  cwd : string;
  files : gmap string (list string) }.

(** A relative path is taken from the working directory. *)
Definition absolute (dir p : string) : string :=
  if starts_with "/" p then p else dir +:+ "/" +:+ p.

(** The argument of the last [os.chdir("..")] line of a Python cell. *)
Definition chdir_line (l : string) : option string :=
  if starts_with ("os.chdir(" +:+ dq) l
  then head (split_on (ascii_of_nat 34) (drop_chars 10 l))
  else None.

Definition chdir_target (c : cell) : option string :=
  if bool_decide (is_python_cell c) then last (omap chdir_line (source c)) else None.

(** The path a [%%writefile] cell names, and the lines it stores. *)
Definition written_path (c : cell) : option string :=
  if bool_decide (cell_type c = Code ∧ classify c = WriteFile) then
    match String.words (first_line c) with
    | [_; p] => Some p
    | _ => None
    end
  else None.

Definition written_body (c : cell) : list string := tail (source c).

(** What running a cell writes, seen from the directory [dir]. *)
Definition write_of (dir : string) (c : cell) : option (string * list string) :=
  match chdir_target c with
  | Some _ => None
  | None => (fun p => (absolute dir p, written_body c)) <$> written_path c
  end.

Definition exec_cell (k : session) (c : cell) : session :=
  match chdir_target c with
  | Some d => Session (absolute (cwd k) d) (files k)
  | None =>
      match write_of (cwd k) c with
      | Some w => Session (cwd k) (<[fst w := snd w]> (files k))
      | None => k
      end
  end.

Definition exec (nb : notebook) (k : session) : session := foldl exec_cell k nb.



(** A fresh session in the directory [dir]. *)
Definition fresh (dir : string) : session := Session dir ∅.



End Files.

(** ** The Kedro project the exercise notebook leaves behind

    [conf/base/catalog.yml] and [conf/base/parameters.yml] as the notebook
    writes them: a catalog entry is a name at column 0 followed by indented
    [key: value] lines, a parameter is a [key: value] line at column 0. *)

Module Project.
Import Text Nb Py Deps Files.

Definition project_dir : string := "/workshop/workspace/workflow-tutorial".

(** The session after the exercise notebook has run from directory [dir]. *)
Definition after_exercise (dir : string) : session := exec kedro_exercise (fresh dir).

(** [split_first c s]: the text before and after the first [c] of [s]. *)
Fixpoint split_first_go (c : ascii) (pre s : string) : option (string * string) :=
  match s with
  | EmptyString => None
  | String a s' =>
      if decide (a = c) then Some (String.rev pre, s')
      else split_first_go c (String a pre) s'
  end.
Definition split_first (c : ascii) (s : string) : option (string * string) :=
  split_first_go c EmptyString s.

(** A [key: value] line: its indentation, key and value. *)
Definition indented (l : string) : bool :=
  match l with
  | String a _ => Ascii.is_space a
  | EmptyString => false
  end.

Definition key_value (l : string) : option (string * string) :=
  (fun kv => (fst kv, lstrip (snd kv))) <$> split_first ":"%char (lstrip l).

(** An entry: the key at column 0, its own value, and the [key: value]
    lines indented below it. *)
Record entry := Entry {
  e_name : string;
  e_value : string;
  e_fields : list (string * string) }.

Definition add_field (kv : string * string) (es : list entry) : list entry :=
  match es with
  | e :: es' => Entry (e_name e) (e_value e) (e_fields e ++ [kv]) :: es'
  | [] => []
  end.

(** The entries of a YAML text, the last one first. *)
Definition parse_line (es : list entry) (l : string) : list entry :=
  if is_blank l then es
  else match key_value l with
       | Some kv => if indented l then add_field kv es
                    else Entry (fst kv) (snd kv) [] :: es
       | None => es
       end.

Definition parse_yaml (ls : list string) : list entry := reverse (foldl parse_line [] ls).

Definition yaml_file (k : session) (p : string) : list entry :=
  parse_yaml (default [] (files k !! absolute project_dir p)).

Definition catalog (k : session) : list entry := yaml_file k "conf/base/catalog.yml".
Definition parameters (k : session) : list entry := yaml_file k "conf/base/parameters.yml".

Definition field (f : string) (e : entry) : option string :=
  snd <$> (snd <$> list_find (fun kv => fst kv = f) (e_fields e)).

(** The file a dataset of the catalog is stored in. *)
Definition dataset_file (cat : list entry) (d : string) : option string :=
  match list_find (fun e => e_name e = d) cat with
  | Some (_, e) => field "filepath" e
  | None => None
  end.

(** *** Kedro pipelines against the catalog *)

Definition produced (l : list kedro_node) : list string := flat_map k_outputs l.

(** The inputs of a pipeline that none of its nodes produces. *)
Definition free_inputs (l : list kedro_node) : list string :=
  remove_dups (filter (fun d => d ∉ produced l) (flat_map k_inputs l)).

(** How Kedro finds a free input: [parameters] is the whole parameter file,
    [params:k] the parameter [k], any other name a dataset of the catalog. *)
Definition resolves (cat params : list entry) (d : string) : Prop :=
  d = "parameters" ∨
  (starts_with "params:" d = true ∧ drop_chars 7 d ∈ e_name <$> params) ∨
  d ∈ e_name <$> cat.

Global Instance resolves_dec cat params d : Decision (resolves cat params d).
Proof. unfold resolves. apply _. Defined.

(** The files a pipeline writes: those of the datasets it produces that the
    catalog stores in a file (the others stay in memory). *)
Definition pipeline_writes (cat : list entry) (l : list kedro_node) : list string :=
  omap (dataset_file cat) (produced l).

Definition pipeline_reads (cat : list entry) (l : list kedro_node) : list string :=
  omap (dataset_file cat) (free_inputs l).

(** The pipeline a [dvc run] stage runs: the [--pipeline=] option of its
    [kedro run] command. *)
Fixpoint unquoted (s : string) : string :=
  match s with
  | EmptyString => EmptyString
  | String a s' => if decide (a = "'"%char) then unquoted s' else String a (unquoted s')
  end.

Definition stage_pipeline (s : stage) : option string :=
  head (omap (fun w => if starts_with "--pipeline=" (unquoted w)
                       then Some (drop_chars 11 (unquoted w)) else None) (s_cmd s)).

Definition registered (n : string) : list kedro_node :=
  default [] (snd <$> (snd <$> list_find (fun p => fst p = n) register_pipelines)).

Definition stage_nodes (s : stage) : list kedro_node :=
  default [] (registered <$> stage_pipeline s).

(** The function of a node, when it is one the notebook defines for
    [nodes.py] ([split_data] and [train_model] come from elsewhere). *)
Definition node_function (n : kedro_node) : option fn :=
  snd <$> list_find (fun f => f_name f = k_func n)
                    (snd <$> functions_of [evaluate_model_cell; download_data_cell]).

(** Every pipeline the notebook defines. *)
Definition all_pipelines : list (string * list kedro_node) :=
  ("create_pipeline", create_pipeline) :: register_pipelines.

End Project.

(** The parameters a [dvc run] stage tracks: [-p file:key,key,..]. *)
Module Tracked.
Import Text Nb Py Deps Files Project.

Definition tracked_params (s : stage) : list (string * list string) :=
  omap (fun p => (fun fk => (fst fk, split_on ","%char (snd fk))) <$> split_first ":"%char p)
       (s_params s).

(** The single parameters the nodes of a stage read by name ([params:k]). *)
Definition named_params (l : list kedro_node) : list string :=
  omap (fun d => if starts_with "params:" d then Some (drop_chars 7 d) else None)
       (free_inputs l).

(** The file arguments of a stage's command [python script function args..]. *)
Definition command_args (s : stage) : list string := drop 3 (s_cmd s).
Definition command_script (s : stage) : option string := s_cmd s !! 1.

End Tracked.

(** ** Host files and ports behind the compose services *)

Module Hosts.
Import Text Nb Compose.




(** The host ports of all services, with the service that publishes each. *)
Definition all_host_ports (f : compose_file) : list (N * string) :=
  flat_map (fun s => (fun p => (p, fst s)) <$> host_ports (snd s)) (services f).

(** The port a [!] line passes to the server it starts ([--port N] or
    [-p N]), for the servers the notebooks start. *)
Fixpoint option_value (opts : list string) (ws : list string) : option string :=
  match ws with
  | o :: ws' =>
      if bool_decide (o ∈ opts) then head ws' else option_value opts ws'
  | [] => None
  end.

Definition server_port (l : string) : option (string * N) :=
  match String.words l with
  | cmd :: ws =>
      if bool_decide (cmd ∈ ["!uvicorn"; "!airflow"]) then
        (fun p => (drop_chars 1 cmd, p)) <$> (option_value ["--port"; "-p"] ws ≫= parse_N)
      else None
  | [] => None
  end.

Definition server_ports (nb : notebook) : list (string * N) :=
  remove_dups (omap server_port (flat_map source (code_cells nb))).



(** The service that publishes the host port [p]. *)
Definition publisher (p : N) : option string :=
  snd <$> (snd <$> list_find (fun hp => fst hp = p) (all_host_ports docker_compose)).

End Hosts.

(** ** Running [download_data] *)

Module Download.
Import Text Py Kernel.

(** The library calls of the body: [pd.read_csv(url, sep=..)],
    [logging.getLogger(name)] and [logger.info(msg)]. *)
Record data_externals (O W : Type) := DataExternals {
  read_csv : string -> string -> run W O;
  get_logger : string -> run W O;
  log_info : O -> string -> run W unit }.
Arguments read_csv {O W}.
Arguments get_logger {O W}.
Arguments log_info {O W}.

Section Body.
Context {O W : Type}.

Definition download_data (G : namespace) (E : data_externals O W) (url : string)
  : run W O :=
  (* data = pd.read_csv(url, sep=';') *)
  read G "pd";;
  data ← read_csv E url ";";
  (* logger = logging.getLogger(__name__) *)
  read G "logging";;
  read G "__name__";;
  logger ← get_logger E (dunder_name G);
  (* logger.info(f"Data downloaded from {url}") *)
  log_info E logger ("Data downloaded from " +:+ url);;
  (* return data *)
  mret data.

End Body.

(** The namespace of the kernel when the cell that defines [download_data]
    has run: the names bound by the Python cells of the exercise up to it. *)
Definition download_namespace : namespace :=
  {| bound := list_to_set (module_names kedro_chdir_cell ++ module_names evaluate_model_cell
                           ++ module_names download_data_cell);
     dunder_name := "__main__" |}.

(** A concrete world: frames are the url they were read from, the world is
    what happened so far. *)
Inductive happened :=
| Fetched (url sep : string)
| Logged (msg : string).

Definition web (reachable : string -> bool) : data_externals string (list happened) :=
  {| read_csv := fun url sep w =>
       if reachable url then (Returned url, w ++ [Fetched url sep])
       else (Threw (Raised "URLError"), w);
     get_logger := fun name w => (Returned name, w);
     log_info := fun _ msg w => (Returned (), w ++ [Logged msg]) |}.

(** A namespace that binds what the body reads, as a [nodes.py] does that
    imports pandas and logging. *)
Definition data_namespace : namespace :=
  {| bound := {[ "pd"; "logging" ]};
     dunder_name := "workflow_tutorial.pipelines.nodes" |}.

End Download.

(** ** More worlds for [evaluate_model] *)

Module Worlds.
Import Text Py Kernel.

(** A tracking store that accepts the metrics whose key [accepts] holds for
    and raises on the others; the rest is as in [toy]. *)
Definition picky (accepts : string -> bool) : externals nat nat (list logged) :=
  {| predict := predict (toy (fun _ => true) true);
     mean_squared_error := mean_squared_error (toy (fun _ => true) true);
     mean_absolute_error := mean_absolute_error (toy (fun _ => true) true);
     r2_score := r2_score (toy (fun _ => true) true);
     sqrt := sqrt (toy (fun _ => true) true);
     log_metric := fun k v w =>
       if accepts k then (Returned (), w ++ [Metric k v])
       else (Threw (Raised "MlflowException"), w);
     getLogger := getLogger (toy (fun _ => true) true);
     info := info (toy (fun _ => true) true) |}.

(** A metric library whose [r2_score] raises (as on a single sample). *)
Definition no_r2 : externals nat nat (list logged) :=
  {| predict := predict (toy (fun _ => true) true);
     mean_squared_error := mean_squared_error (toy (fun _ => true) true);
     mean_absolute_error := mean_absolute_error (toy (fun _ => true) true);
     r2_score := fun _ _ w => (Threw (Raised "ValueError"), w);
     sqrt := sqrt (toy (fun _ => true) true);
     log_metric := log_metric (toy (fun _ => true) true);
     getLogger := getLogger (toy (fun _ => true) true);
     info := info (toy (fun _ => true) true) |}.

(** A namespace that imports everything but [logging]. *)
Definition without_logging : namespace :=
  {| bound := {[ "np"; "mean_squared_error"; "mean_absolute_error"; "r2_score"; "mlflow" ]};
     dunder_name := "workflow_tutorial.pipelines.nodes" |}.

Section Failing.
Context {O F W : Type}.

(** One of the calls that compute the metrics raises [e] and leaves the
    world [w']; the calls before it returned. *)
Definition metrics_raise (E : externals O F W) (pipe x_test y_test : O)
  (w : W) (e : exn) (w' : W) : Prop :=
  predict E pipe x_test w = (Threw e, w') ∨
  exists y_pred w1, predict E pipe x_test w = (Returned y_pred, w1) ∧
    (mean_squared_error E y_test y_pred w1 = (Threw e, w') ∨
     exists mse w2, mean_squared_error E y_test y_pred w1 = (Returned mse, w2) ∧
       (sqrt E mse w2 = (Threw e, w') ∨
        exists rmse w3, sqrt E mse w2 = (Returned rmse, w3) ∧
          (mean_absolute_error E y_test y_pred w3 = (Threw e, w') ∨
           exists mae w4, mean_absolute_error E y_test y_pred w3 = (Returned mae, w4) ∧
             r2_score E y_test y_pred w4 = (Threw e, w')))).

(** The three [mlflow.log_metric] calls return. *)
Definition metrics_logged (E : externals O F W) (rmse mae r2 : F) (w w' : W) : Prop :=
  exists w1 w2,
    log_metric E "rmse" rmse w = (Returned (), w1) ∧
    log_metric E "mae" mae w1 = (Returned (), w2) ∧
    log_metric E "r2" r2 w2 = (Returned (), w').

End Failing.

End Worlds.

(** ** The operators of the Airflow listings *)

Module Operators.
Import Text Py.

(** An operator as a listing builds it: the variable it is bound to, its
    class and its keyword arguments. *)
Record operator_def := OperatorDef {
  o_var : string;
  o_class : string;
  o_kwargs : list (string * expr) }.

Definition operators (m : pymodule) : list operator_def :=
  flat_map (fun s => match s with
                     | SAssign x (ECall (EName c) [] kw) => [OperatorDef x c kw]
                     | _ => []
                     end) (code m).

Definition kwarg_name (k : string) (o : operator_def) : option string :=
  match kwarg k (o_kwargs o) with
  | Some (EName x) => Some x
  | _ => None
  end.
Definition kwarg_str (k : string) (o : operator_def) : option string :=
  match kwarg k (o_kwargs o) with
  | Some (EStr x) => Some x
  | _ => None
  end.

(** The function an operator runs. *)
Definition callable (m : pymodule) (o : operator_def) : option fn :=
  kwarg_name "python_callable" o ≫= function_named m.

Definition takes_context (f : fn) : bool :=
  existsb (fun p => match p_kind p with VarKeyword => true | Plain => false end) (f_params f).

Definition provides_context (o : operator_def) : bool :=
  bool_decide (kwarg_name "provide_context" o = Some "True").

(** The task ids an expression pulls XCom values from: the [task_ids] of
    every call [...xcom_pull(task_ids="t")] in it. *)
Fixpoint pulls_of (e : expr) : list string :=
  match e with
  | EName _ | EStr _ => []
  | EAttr e' _ => pulls_of e'
  | ESubscript e' i => pulls_of e' ++ pulls_of i
  | ETuple es | EList es | EFString es => flat_map pulls_of es
  | EDict items => flat_map (fun kv => pulls_of (fst kv) ++ pulls_of (snd kv)) items
  | EBinOp _ l r => pulls_of l ++ pulls_of r
  | ECall f args kw =>
      (match f, kwarg "task_ids" kw with
       | EAttr _ a, Some (EStr t) => if decide (a = "xcom_pull") then [t] else []
       | _, _ => []
       end)
        ++ pulls_of f ++ flat_map pulls_of args
        ++ flat_map (fun kv => pulls_of (snd kv)) kw
  end.

Definition pulled_tasks (f : fn) : list string :=
  flat_map pulls_of (body_exprs (f_body f)).

(** The operator with a given [task_id]. *)
Definition operator_of_task (m : pymodule) (t : string) : option operator_def :=
  snd <$> list_find (fun o => kwarg_str "task_id" o = Some t) (operators m).

(** [(a, b)] for every operator [b] whose function pulls from the task of
    operator [a]. *)
Definition pull_edges (m : pymodule) : list (string * string) :=
  flat_map (fun o =>
    match callable m o with
    | Some f => omap (fun t => (fun src => (o_var src, o_var o)) <$> operator_of_task m t)
                     (pulled_tasks f)
    | None => []
    end) (operators m).

End Operators.

Import Text Nb Compose Py Deps Workspace Kernel Statements.

(** * Theorems *)

(** Statements about the embedded notebooks and files are decidable; a
    conjunction of them is settled conjunct by conjunct by evaluation. *)
Ltac settle := repeat match goal with |- _ ∧ _ => split end; compute_done.

(** ** The syntax is the text of the cells

    The abstract syntax of every module, written out, is the text of the
    cell it is taken from, but for the layout. *)
Lemma syntax_is_cell_text :
  (fun c => squash (python_text c)) <$> filter holds_python kedro_exercise
    = (fun m => squash (render m)) <$> kedro_modules ∧
  (fun c => squash (python_text c)) <$> filter holds_python dvc_introduction
    = (fun m => squash (render m)) <$> dvc_modules ∧
  (fun c => squash (listing_text c))
    <$> drop 1 (filter (fun c => listing_lines c ≠ []) airflow_introduction)
    = (fun m => squash (render m)) <$> airflow_listings ∧
  (fun c => squash (listing_text c))
    <$> drop 1 (filter (fun c => listing_lines c ≠ []) airflow_classification_pipeline)
    = (fun m => squash (render m)) <$> presentation_listings ∧
  Forall (fun nb => filter holds_python nb = [])
         [ airflow_classification_pipeline; fastapi_introduction_part;
           FastAPI_Introduction; airflow_introduction ] ∧
  Forall (fun nb => filter (fun c => listing_lines c ≠ []) nb = [])
         [ fastapi_introduction_part; kedro_exercise; FastAPI_Introduction;
           dvc_introduction ].
Proof. settle. Qed.

(** The functions of the two Airflow notebooks are the same three. *)
Lemma presentation_functions :
  (fun mf => snd mf) <$> functions_of presentation_listings
    = (fun mf => snd mf) <$> functions_of airflow_listings.
Proof. reflexivity. Qed.

(** The orderings read off the text are those of the syntax. *)
Lemma orderings_of_syntax :
  orderings airflow_introduction = flat_map module_orderings airflow_listings ∧
  orderings airflow_classification_pipeline
    = flat_map module_orderings presentation_listings.
Proof. settle. Qed.

(** ** C1: what the cells are *)

Lemma chdir_cell_is_python dir : is_python_cell (Cell Code (chdir_source dir)).
Proof. split; [done|]. reflexivity. Qed.

(** C1, as stated, fails: the fourth cell of the DVC notebook is a code cell
    whose two lines are Python statements run in the kernel, so it is
    neither markdown nor a shell invocation. *)
Lemma C1_python_cell_counterexample :
  dvc_introduction !! 3 = Some dvc_chdir_cell ∧
  is_python_cell dvc_chdir_cell ∧
  ¬ (forall name nb c, (name, nb) ∈ notebooks -> c ∈ nb -> markdown_or_shell c).
Proof.
  split; [reflexivity|]. split; [apply chdir_cell_is_python|].
  intros H.
  assert (Hc : markdown_or_shell dvc_chdir_cell).
  { apply (H "notebooks/dvc/dvc_introduction.ipynb" dvc_introduction).
    - apply (list_elem_of_lookup_2 _ 5). reflexivity.
    - apply (list_elem_of_lookup_2 _ 3). reflexivity. }
  destruct Hc as [Hc | [_ [Hc | Hc]]]; discriminate Hc.
Qed.

(** C1, amended: every cell of every notebook is a markdown cell or a code
    cell, and every code cell is a shell invocation ([!] lines or a
    [%%bash]/[%%sh] cell), a [%%writefile] cell, a cell without any
    statement, or a cell of Python statements run in the kernel (the table
    counts the five kinds per notebook).  There are exactly five of the
    last kind: three in the Kedro exercise and two in the DVC notebook;
    each either changes the working directory with [os.chdir] or defines
    [evaluate_model] or [download_data]. *)
Theorem C1_cells_classified :
  Forall (fun p =>
    Forall (fun c =>
      cell_type c = Markdown ∨ is_shell_cell c ∨
      (cell_type c = Code ∧ classify c = WriteFile) ∨
      (cell_type c = Code ∧ classify c = NoStatement) ∨
      is_python_cell c) (snd p)) notebooks ∧
  (fun p => (fun k => class_count k (snd p))
               <$> [ShellMagic; ShellLines; WriteFile; NoStatement; Python]) <$> notebooks
    = [ [0; 0; 0; 0; 0]; [0; 3; 0; 1; 0]; [2; 14; 6; 2; 3];
        [0; 3; 0; 0; 0]; [0; 3; 0; 1; 0]; [7; 23; 0; 1; 2] ] ∧
  Forall python_cell_kind all_python_cells.
Proof.
  split; [|split].
  - apply Forall_forall. intros p _. apply Forall_forall. intros [[] src] _.
    + by left.
    + unfold is_shell_cell, is_python_cell. simpl.
      destruct (classify (Cell Code src)); naive_solver.
  - by vm_compute.
  - unfold python_cell_kind. compute_done.
Qed.

(** ** C2: the services of the compose file *)

(** C2: the compose file defines the two services [jupyter] and [airflow]
    and no other; each names one image, publishes host ports (jupyter 8888,
    4141, 5000 and 7777, airflow 8080) and mounts at least one volume. *)
Theorem C2_compose_two_services :
  fst <$> services docker_compose = ["jupyter"; "airflow"] ∧
  image <$> service_named docker_compose "jupyter"
    = Some "radtkem/from-jupyter-to-production-baseimage:latest" ∧
  image <$> service_named docker_compose "airflow"
    = Some "radtkem/from-jupyter-to-production-airflow-image:latest" ∧
  host_ports <$> service_named docker_compose "jupyter" = Some [8888; 4141; 5000; 7777]%N ∧
  host_ports <$> service_named docker_compose "airflow" = Some [8080%N] ∧
  Forall (fun s =>
    image (snd s) ≠ EmptyString ∧
    length (published (snd s)) = length (ports (snd s)) ∧ 1 ≤ length (ports (snd s)) ∧
    length (mounts (snd s)) = length (volumes (snd s)) ∧ 1 ≤ length (volumes (snd s)))
    (services docker_compose).
Proof.
  settle.
Qed.

(** ** C4: the shell invocations *)

(** C4: each of the eight invocations the description names is run by a
    code cell of some notebook. *)
Theorem C4_named_invocations_occur :
  Forall (fun cmd => Exists (fun p => Exists (invokes cmd) (snd p)) notebooks)
         named_invocations.
Proof. compute_done. Qed.

(** ** C6: Kedro's constructors *)

(** C6: every cell that calls [Pipeline(..)] or [node(..)] carries the line
    [from kedro.pipeline import Pipeline, node] and imports the two names
    from nowhere else; there are two such cells; no cell of any notebook
    defines a function or class named [Pipeline] or [node]; and in the
    syntax of the written files every call of the two names resolves to the
    package [kedro]. *)
Theorem C6_kedro_constructors_external :
  Forall (fun p =>
    Forall (fun c =>
      kedro_import ∈ source c ∧
      import_lines "Pipeline" c = [kedro_import] ∧
      import_lines "node" c = [kedro_import])
      (filter constructs (snd p))) notebooks ∧
  (fun p => length (filter constructs (snd p))) <$> notebooks = [0; 0; 2; 0; 0; 0] ∧
  Forall (fun p => Forall (fun c => ¬ defines "Pipeline" c ∧ ¬ defines "node" c) (snd p))
         notebooks ∧
  Forall (fun mf => Forall (fun cp => snd cp = Library "kedro")
                           (constructor_calls (fst mf) (snd mf)))
         repository_functions ∧
  (fun mf => length (constructor_calls (fst mf) (snd mf))) <$> repository_functions
    = [0; 4; 0; 4; 5; 0; 0; 0; 0; 0; 0].
Proof. settle. Qed.

(** ** C7: XCom *)

(** C7, as stated, fails: in the Airflow notebook the sentence that names
    [xcom_push()] and [xcom_pull()] is prose of the markdown cell, outside
    the fenced listing; [xcom_push] occurs nowhere else. *)
Lemma C7_xcom_in_prose_counterexample :
  xcom_line xcom_sentence ∧
  Exists (fun c => xcom_sentence ∈ source c ∧ xcom_sentence ∉ listing_lines c)
         airflow_introduction ∧
  ¬ (forall name nb c l, (name, nb) ∈ notebooks -> c ∈ nb -> l ∈ source c ->
       xcom_line l -> l ∈ listing_lines c).
Proof.
  assert (Hex : Exists (fun c => xcom_sentence ∈ source c ∧ xcom_sentence ∉ listing_lines c)
                       airflow_introduction) by compute_done.
  split; [compute_done|]. split; [exact Hex|].
  intros H. apply Exists_exists in Hex as (c & Hc & Hin & Hout).
  apply Hout.
  apply (H "notebooks/airflow/airflow-introduction.ipynb" airflow_introduction c);
    [ apply (list_elem_of_lookup_2 _ 4); reflexivity | done | done | compute_done ].
Qed.

(** C7, amended: every cell that mentions [xcom_push] or [xcom_pull] is a
    markdown cell of an Airflow notebook.  In each of the two Airflow
    notebooks the occurrences are the [xcom_pull] call in the fenced
    listing and the sentence of the prose that names both operations; no
    other notebook mentions them, and no function defined in any notebook
    has XCom in its name. *)
Theorem C7_xcom_only_in_airflow_markdown :
  Forall (fun p =>
    Forall (fun c => cell_type c = Markdown ∧ is_airflow_notebook (snd p))
           (filter mentions_xcom (snd p))) notebooks ∧
  Forall (fun p =>
    xcom_in_listings (snd p)
      = (if bool_decide (is_airflow_notebook (snd p)) then [xcom_pull_line] else []) ∧
    xcom_in_prose (snd p)
      = (if bool_decide (is_airflow_notebook (snd p)) then [xcom_sentence] else []))
    notebooks ∧
  (fun p => bool_decide (is_airflow_notebook (snd p))) <$> notebooks
    = [true; false; false; false; true; false] ∧
  Forall (fun p => Forall (fun f => contains "xcom" f = false) (defined_functions (snd p)))
         notebooks ∧
  Forall (fun mf => contains "xcom" (f_name (snd mf)) = false) repository_functions.
Proof. settle. Qed.

(** ** C8: the shared workspace volume *)

(** C8: in both services every path below [/workshop/workspace] lies in the
    named volume [workspace], at the same place relative to it; the volume
    is declared by the compose file; and the paths below
    [/workshop/workspace] that the notebooks use are
    [/workshop/workspace/workflow-tutorial] and
    [/workshop/workspace/dvc_intro], which both services resolve alike. *)
Theorem C8_workspace_volume_shared (rel : list string) :
  Forall (fun s => resolve (snd s) (workspace_dir ++ rel) = Some (NamedVolume "workspace", rel))
         (services docker_compose) ∧
  Forall (fun s => Mount (NamedVolume "workspace") "/workshop/workspace" ∈ mounts (snd s))
         (services docker_compose) ∧
  "workspace" ∈ top_volumes docker_compose ∧
  used_paths = [ "/workshop/workspace/workflow-tutorial"; "/workshop/workspace/dvc_intro" ] ∧
  Forall (fun p =>
    Forall (fun s =>
      resolve (snd s) (components p)
        = Some (NamedVolume "workspace", drop 2 (components p)))
      (services docker_compose)) used_paths.
Proof.
  split; [|settle].
  unfold docker_compose; cbn [services].
  repeat (apply Forall_cons; split; [by vm_compute|]). constructor.
Qed.

(** ** C5: the dependency structures are acyclic *)

Section Ranked.
Context {A : Type} (edge : A -> A -> Prop) (rank : A -> nat).
Hypothesis edge_increases : forall a b, edge a b -> rank a < rank b.

Lemma tc_increases a b : tc edge a b -> rank a < rank b.
Proof.
  induction 1 as [a b Hab | a b c Hab _ IH].
  - by apply edge_increases.
  - apply edge_increases in Hab. lia.
Qed.

Lemma ranked_acyclic : acyclic edge.
Proof. intros a Ha. apply tc_increases in Ha. lia. Qed.
End Ranked.

Lemma forward_acyclic {A} `{EqDecision A} (produces consumes : A -> list string) l :
  forward produces consumes l -> acyclic (dataflow produces consumes l).
Proof.
  intros Hf. apply (ranked_acyclic _ (position l)).
  intros a b (Ha & Hb & Hab).
  unfold forward in Hf. rewrite Forall_forall in Hf.
  specialize (Hf a Ha). rewrite Forall_forall in Hf. by apply Hf.
Qed.

Lemma forward_pairs_acyclic {A} `{EqDecision A} (order : list A) E :
  forward_pairs order E -> acyclic (pairs E).
Proof.
  intros Hf. apply (ranked_acyclic _ (position order)).
  intros a b Hab. unfold forward_pairs in Hf. rewrite Forall_forall in Hf.
  apply (Hf (a, b) Hab).
Qed.

Lemma dvc_acyclic l : forward stage_writes s_deps l -> acyclic (dvc_edge l).
Proof. apply forward_acyclic. Qed.

Lemma kedro_acyclic l : forward k_outputs k_inputs l -> acyclic (kedro_edge l).
Proof. apply forward_acyclic. Qed.

Lemma ordering_acyclic E : forward_pairs (tasks E) E -> acyclic (pairs E).
Proof. apply forward_pairs_acyclic. Qed.

(** C5: the stages of the DVC notebook are download, split, train and
    evaluate, with the dependencies download -> split -> train -> evaluate
    and split -> evaluate; the dependency relation of the DVC stages of
    every notebook is acyclic, so is the orderings [a >> b] of every
    notebook's listings ([fs_task >> python_task] and [task1 >> task2] in
    the Airflow notebooks), and so is the input/output relation of every
    Kedro pipeline: [create_pipeline], the red wine and the white wine
    pipeline and their sum. *)
Theorem C5_dependency_structures_acyclic :
  s_name <$> dvc_stages dvc_introduction = ["download"; "split"; "train"; "evaluate"] ∧
  edge_names s_name stage_writes s_deps (dvc_stages dvc_introduction)
    = [("download", "split"); ("split", "train"); ("split", "evaluate");
       ("train", "evaluate")] ∧
  orderings airflow_introduction = [("fs_task", "python_task"); ("task1", "task2")] ∧
  orderings airflow_classification_pipeline = orderings airflow_introduction ∧
  Forall (fun p => acyclic (dvc_edge (dvc_stages (snd p))) ∧
                   acyclic (pairs (orderings (snd p)))) notebooks ∧
  Forall (fun p => acyclic (kedro_edge (snd p)))
         (("create_pipeline", create_pipeline) :: register_pipelines).
Proof.
  split; [compute_done|]. split; [compute_done|].
  split; [compute_done|]. split; [compute_done|]. split.
  - unfold notebooks.
    repeat (apply Forall_cons; split;
            [split; [apply dvc_acyclic | apply ordering_acyclic]; compute_done|]).
    constructor.
  - unfold register_pipelines.
    repeat (apply Forall_cons; split; [apply kedro_acyclic; compute_done|]).
    constructor.
Qed.

(** ** C3: what the functions of the notebooks call *)

(** C3, as stated, fails: [evaluate_model] calls [logging.getLogger] of
    Python's standard library and the builtin [float], and
    [register_pipelines] calls the project's own [create_red_wine_pipeline]
    and [create_white_wine_pipeline]; none of these is one of the listed
    third-party libraries. *)
Lemma C3_not_only_third_party_counterexample :
  Exists (fun f => f_name f = "evaluate_model" ∧
            Exists (fun cp => root (fst cp) = Some "logging" ∧ snd cp = Library "logging")
                   (calls evaluate_model_cell f) ∧
            Exists (fun cp => root (fst cp) = Some "float" ∧ snd cp = Builtin "float")
                   (calls evaluate_model_cell f))
         (functions evaluate_model_cell) ∧
  ¬ from_third_party (Library "logging") ∧
  ¬ from_third_party (Builtin "float") ∧
  ¬ Forall composes_third_party repository_functions.
Proof. settle. Qed.

(** C3, amended: the notebooks define eleven functions (three of them in
    the listings of the Airflow notebooks, three as methods of the class
    [ProjectHooks], which has no data attribute).  The body of each is
    straight-line code: no branch, no loop, no call of a function of its
    own module.  Every call goes to sklearn, numpy, pandas, mlflow or
    kedro, to a method of an object at hand, to Python's [logging], [float]
    or [print], or, in [register_pipelines] only, to the project's own
    [create_red_wine_pipeline] and [create_white_wine_pipeline]. *)
Theorem C3_functions_compose_library_calls :
  (fun mf => (f_class (snd mf), f_name (snd mf), providers (fst mf) (snd mf)))
    <$> repository_functions
  = [ (None, "evaluate_model",
       [Library "numpy"; Library "sklearn"; Library "mlflow"; Library "logging";
        Local; Builtin "float"]);
      (None, "create_pipeline", [Library "kedro"]);
      (None, "download_data", [Library "pandas"; Library "logging"; Local]);
      (None, "create_red_wine_pipeline", [Library "kedro"]);
      (None, "create_white_wine_pipeline", [Library "kedro"]);
      (Some "ProjectHooks", "register_pipelines",
       [Library "kedro"; Own "workflow_tutorial.pipelines"]);
      (Some "ProjectHooks", "register_config_loader", [Library "kedro"]);
      (Some "ProjectHooks", "register_catalog", [Library "kedro"]);
      (None, "print_sth", [Builtin "print"]);
      (None, "foo", []);
      (None, "bar", [Local; Builtin "print"]) ] ∧
  Forall (fun mf =>
    straight_line (f_body (snd mf)) = true ∧
    calls_own_definition (fst mf) (snd mf) = false ∧
    Forall (fun cp => external_provider (snd cp) ∨
                      (f_name (snd mf) = "register_pipelines" ∧ is_own (snd cp) = true))
           (calls (fst mf) (snd mf)))
    repository_functions ∧
  own_calls <$> repository_functions
    = [ []; []; []; []; []; ["create_red_wine_pipeline"; "create_white_wine_pipeline"];
        []; []; []; []; [] ] ∧
  flat_map classes (kedro_modules ++ airflow_listings) = [("ProjectHooks", [])] ∧
  defined_functions kedro_exercise = (fun mf => f_name (snd mf)) <$> functions_of kedro_modules ∧
  defined_functions airflow_introduction
    = (fun mf => f_name (snd mf)) <$> functions_of airflow_listings ∧
  defined_functions airflow_classification_pipeline
    = defined_functions airflow_introduction ∧
  Forall (fun nb => defined_functions nb = [])
         [fastapi_introduction_part; FastAPI_Introduction; dvc_introduction].
Proof. settle. Qed.

(** ** Running [evaluate_model] *)

Section RunFacts.
Context {W : Type}.

Lemma bind_returned {A B} (f : A -> run W B) (m : run W A) w a w' :
  m w = (Returned a, w') -> (m ≫= f) w = f a w'.
Proof. intros H. unfold mbind, run_bind. by rewrite H. Qed.

Lemma bind_threw {A B} (f : A -> run W B) (m : run W A) w e w' :
  m w = (Threw e, w') -> (m ≫= f) w = (Threw e, w').
Proof. intros H. unfold mbind, run_bind. by rewrite H. Qed.

Lemma read_bound G x (w : W) :
  x ∈ bound G ∪ builtin_names -> read G x w = (Returned (), w).
Proof. intros H. unfold read. by rewrite decide_True. Qed.

Lemma read_unbound G x (w : W) :
  x ∉ bound G ∪ builtin_names -> read G x w = (Threw (NameError x), w).
Proof. intros H. unfold read. by rewrite decide_False. Qed.

(** A computation never leaves the world without an outcome. *)
Lemma outcome_cases {A} (m : run W A) w :
  (exists a w', m w = (Returned a, w')) ∨ (exists e w', m w = (Threw e, w')).
Proof. destruct (m w) as [[a|e] w']; eauto. Qed.
End RunFacts.

(** One statement of the body: a call that returned, a call that threw, a
    global name that is bound, a global name that is not. *)
Ltac returned H := rewrite (bind_returned _ _ _ _ _ H); cbv beta.
Ltac threw H := rewrite (bind_threw _ _ _ _ _ H); cbv beta.
Ltac reads x Hin :=
  rewrite (bind_returned _ _ _ _ _ (read_bound _ x _ Hin)); cbv beta.
Ltac read_fails x Hout :=
  rewrite (bind_threw _ _ _ _ _ (read_unbound _ x _ Hout)); cbv beta.

Lemma exercise_binds x :
  x ∈ ["np"; "mean_squared_error"; "mean_absolute_error"; "r2_score"] ->
  x ∈ bound exercise_namespace ∪ builtin_names.
Proof.
  intros Hx. repeat (apply elem_of_cons in Hx as [-> | Hx]; [compute_done|]).
  by apply elem_of_nil in Hx.
Qed.

Lemma exercise_lacks_mlflow : "mlflow" ∉ bound exercise_namespace ∪ builtin_names.
Proof. compute_done. Qed.

Lemma exercise_lacks_logging : "logging" ∉ bound exercise_namespace ∪ builtin_names.
Proof. compute_done. Qed.

Lemma builtin_bound G x : x ∈ builtins -> x ∈ bound G ∪ builtin_names.
Proof. intros Hx. apply elem_of_union_r. unfold builtin_names. by apply elem_of_list_to_set. Qed.

Lemma read_name_bound G x :
  names_read ⊆ bound G -> x ∈ names_read -> x ∈ bound G ∪ builtin_names.
Proof. intros Hsub Hx. apply elem_of_union_l. by apply Hsub. Qed.

(** The global names [evaluate_model] reads, in order, are those its
    written-out body reads: the sequence of [read]s in the program above. *)
Lemma reads_of_evaluate_model :
  global_reads <$> functions evaluate_model_cell
    = [[ "np"; "mean_squared_error"; "mean_absolute_error"; "r2_score";
         "mlflow"; "mlflow"; "mlflow"; "logging"; "__name__";
         "float"; "float"; "float" ]] ∧
  Forall (fun f => names_read
                   = list_to_set (filter (fun x => x ∉ builtins) (global_reads f)))
         (functions evaluate_model_cell).
Proof. settle. Qed.

(** ** C9: [evaluate_model] in the exercise cell *)

(** C9, as stated, fails: when [pipe.predict] raises (here, a model that is
    not fitted), that exception leaves the function, not a NameError. *)
Lemma C9_predict_raises_counterexample :
  evaluate_model exercise_namespace (toy (fun _ => false) true) 1 2 9 []
    = (Threw (Raised "NotFittedError"), []) ∧
  ¬ (forall (O F W : Type) (E : externals O F W) (pipe x_test y_test : O) (w : W),
       exists n w', evaluate_model exercise_namespace E pipe x_test y_test w
                    = (Threw (NameError n), w')).
Proof.
  split; [by vm_compute|].
  intros H.
  destruct (H nat nat (list logged) (toy (fun _ => false) true) 1 2 9 []) as (n & w' & Hn).
  vm_compute in Hn. discriminate Hn.
Qed.

(** C9, amended: run in the namespace of the exercise cell, [evaluate_model]
    never returns, whatever its arguments and whatever the library calls
    do: it raises.  When [pipe.predict] and the sklearn and numpy calls
    return, the exception is the NameError for [mlflow], raised before
    anything is logged; when [pipe.predict] raises, its exception leaves
    the function.  The names its body reads that the cell leaves unbound
    are [mlflow] and [logging]. *)
Theorem C9_evaluate_model_raises_in_exercise_cell
  {O F W : Type} (E : externals O F W) (pipe x_test y_test : O) (w : W) :
  (exists e w', evaluate_model exercise_namespace E pipe x_test y_test w = (Threw e, w')) ∧
  (forall rmse mae r2 w',
     metrics_return E pipe x_test y_test w rmse mae r2 w' ->
     evaluate_model exercise_namespace E pipe x_test y_test w
       = (Threw (NameError "mlflow"), w')) ∧
  (forall e w',
     predict E pipe x_test w = (Threw e, w') ->
     evaluate_model exercise_namespace E pipe x_test y_test w = (Threw e, w')) ∧
  unbound_names evaluate_model_cell <$> functions evaluate_model_cell
    = [["mlflow"; "logging"]] ∧
  ("mlflow" ∉ bound exercise_namespace ∪ builtin_names) ∧
  ("logging" ∉ bound exercise_namespace ∪ builtin_names).
Proof.
  assert (Hnp := exercise_binds "np" ltac:(compute_done)).
  assert (Hmse := exercise_binds "mean_squared_error" ltac:(compute_done)).
  assert (Hmae := exercise_binds "mean_absolute_error" ltac:(compute_done)).
  assert (Hr2 := exercise_binds "r2_score" ltac:(compute_done)).
  assert (Hcond : forall rmse mae r2 w',
     metrics_return E pipe x_test y_test w rmse mae r2 w' ->
     evaluate_model exercise_namespace E pipe x_test y_test w
       = (Threw (NameError "mlflow"), w')).
  { intros rmse mae r2 w' (y_pred & mse & w1 & w2 & w3 & w4 & H1 & H2 & H3 & H4 & H5).
    unfold evaluate_model.
    returned H1. reads "np" Hnp. reads "mean_squared_error" Hmse.
    returned H2. returned H3.
    reads "mean_absolute_error" Hmae. returned H4.
    reads "r2_score" Hr2. returned H5.
    read_fails "mlflow" exercise_lacks_mlflow. reflexivity. }
  split; [|split; [exact Hcond | split; [|split; [compute_done|]]]];
    [| intros e w' H1; unfold evaluate_model; by threw H1
     | split; [exact exercise_lacks_mlflow | exact exercise_lacks_logging] ].
  destruct (outcome_cases (predict E pipe x_test) w) as [(y_pred & w1 & H1) | (e & w1 & H1)];
    [| exists e, w1; unfold evaluate_model; by threw H1].
  destruct (outcome_cases (mean_squared_error E y_test y_pred) w1)
    as [(mse & w2 & H2) | (e & w2 & H2)];
    [| exists e, w2; unfold evaluate_model; returned H1; reads "np" Hnp;
       reads "mean_squared_error" Hmse; by threw H2].
  destruct (outcome_cases (sqrt E mse) w2) as [(rmse & w3 & H3) | (e & w3 & H3)];
    [| exists e, w3; unfold evaluate_model; returned H1; reads "np" Hnp;
       reads "mean_squared_error" Hmse; returned H2; by threw H3].
  destruct (outcome_cases (mean_absolute_error E y_test y_pred) w3)
    as [(mae & w4 & H4) | (e & w4 & H4)];
    [| exists e, w4; unfold evaluate_model; returned H1; reads "np" Hnp;
       reads "mean_squared_error" Hmse; returned H2; returned H3;
       reads "mean_absolute_error" Hmae; by threw H4].
  destruct (outcome_cases (r2_score E y_test y_pred) w4) as [(r2 & w5 & H5) | (e & w5 & H5)];
    [| exists e, w5; unfold evaluate_model; returned H1; reads "np" Hnp;
       reads "mean_squared_error" Hmse; returned H2; returned H3;
       reads "mean_absolute_error" Hmae; returned H4; reads "r2_score" Hr2; by threw H5].
  exists (NameError "mlflow"), w5. apply (Hcond rmse mae r2).
  exists y_pred, mse, w1, w2, w3, w4. repeat split; assumption.
Qed.

(** C9 at a fitted model: the metrics are computed, then [mlflow] is missing. *)
Lemma C9_evaluate_model_raises_witness :
  metrics_return (toy (fun _ => true) true) 1 2 9 [] 6 6 0 [] ∧
  evaluate_model exercise_namespace (toy (fun _ => true) true) 1 2 9 []
    = (Threw (NameError "mlflow"), []).
Proof.
  assert (H : metrics_return (toy (fun _ => true) true) 1 2 9 [] 6 6 0 []).
  { exists 3, 36, [], [], [], []. repeat split; reflexivity. }
  split; [exact H|].
  exact (proj1 (proj2 (C9_evaluate_model_raises_in_exercise_cell
                         (toy (fun _ => true) true) 1 2 9 [])) 6 6 0 [] H).
Defined.

(** ** C10: what [evaluate_model] returns *)

(** C10, as stated, fails: with every name bound and the sklearn and numpy
    calls returning, a failing [mlflow.log_metric] (here, a tracking store
    that is down) leaves the function as an exception; no dict is
    returned. *)
Lemma C10_tracking_down_counterexample :
  names_read ⊆ bound nodes_namespace ∧
  metrics_return (toy (fun _ => true) false) 1 2 9 [] 6 6 0 [] ∧
  evaluate_model nodes_namespace (toy (fun _ => true) false) 1 2 9 []
    = (Threw (Raised "MlflowException"), []) ∧
  ¬ (forall (O F W : Type) (G : namespace) (E : externals O F W) (pipe x_test y_test : O)
            (w : W) (rmse mae r2 : F) (w1 : W),
       names_read ⊆ bound G ->
       metrics_return E pipe x_test y_test w rmse mae r2 w1 ->
       exists d w2, evaluate_model G E pipe x_test y_test w = (Returned d, w2)).
Proof.
  assert (Hb : names_read ⊆ bound nodes_namespace) by apply union_subseteq_l.
  assert (Hm : metrics_return (toy (fun _ => true) false) 1 2 9 [] 6 6 0 []).
  { exists 3, 36, [], [], [], []. repeat split; reflexivity. }
  split; [exact Hb|]. split; [exact Hm|]. split; [by vm_compute|].
  intros H. destruct (H _ _ _ _ _ _ _ _ _ _ _ _ _ Hb Hm) as (d & w2 & Hd).
  vm_compute in Hd. discriminate Hd.
Qed.

(** C10, amended: in a namespace that binds the names the body reads, when
    [pipe.predict] and the sklearn and numpy calls return and the three
    [mlflow.log_metric] calls and the logging calls return as well,
    [evaluate_model] returns a dict whose only key is ["train"], mapped to a
    dict with exactly the keys ["rmse"], ["mae"] and ["r2"]; their float
    values are the metrics computed from [y_test] and the prediction for
    [x_test], that is, on the test data. *)
Theorem C10_evaluate_model_returns_train_metrics
  {O F W : Type} (G : namespace) (E : externals O F W) (pipe x_test y_test : O)
  (w : W) (rmse mae r2 : F) (w1 w2 : W) :
  names_read ⊆ bound G ->
  metrics_return E pipe x_test y_test w rmse mae r2 w1 ->
  tracking_returns E (dunder_name G) rmse mae r2 w1 w2 ->
  exists d : gmap string (gmap string F),
    evaluate_model G E pipe x_test y_test w = (Returned d, w2) ∧
    dom d = {[ "train" ]} ∧
    exists m, d !! "train" = Some m ∧
      dom m = {[ "rmse"; "mae"; "r2" ]} ∧
      m !! "rmse" = Some rmse ∧ m !! "mae" = Some mae ∧ m !! "r2" = Some r2.
Proof.
  intros Hsub (y_pred & mse & v1 & v2 & v3 & v4 & H1 & H2 & H3 & H4 & H5)
         (logger & u1 & u2 & u3 & u4 & L1 & L2 & L3 & L4 & L5).
  assert (Hread : forall x, x ∈ names_read -> x ∈ bound G ∪ builtin_names)
    by (intros x; by apply read_name_bound).
  assert (Hbuiltin : forall x, x ∈ builtins -> x ∈ bound G ∪ builtin_names)
    by (intros x; apply builtin_bound).
  eexists. split; [|split].
  - unfold evaluate_model.
    returned H1.
    reads "np" (Hread "np" ltac:(compute_done)).
    reads "mean_squared_error" (Hread "mean_squared_error" ltac:(compute_done)).
    returned H2. returned H3.
    reads "mean_absolute_error" (Hread "mean_absolute_error" ltac:(compute_done)).
    returned H4.
    reads "r2_score" (Hread "r2_score" ltac:(compute_done)).
    returned H5.
    reads "mlflow" (Hread "mlflow" ltac:(compute_done)). returned L1.
    reads "mlflow" (Hread "mlflow" ltac:(compute_done)). returned L2.
    reads "mlflow" (Hread "mlflow" ltac:(compute_done)). returned L3.
    reads "logging" (Hread "logging" ltac:(compute_done)).
    reads "__name__" (Hbuiltin "__name__" ltac:(compute_done)).
    returned L4. returned L5.
    reads "float" (Hbuiltin "float" ltac:(compute_done)).
    reads "float" (Hbuiltin "float" ltac:(compute_done)).
    reads "float" (Hbuiltin "float" ltac:(compute_done)).
    reflexivity.
  - by rewrite dom_singleton_L.
  - eexists. split; [apply lookup_singleton_eq|].
    unfold float. split; [rewrite !dom_insert_L, dom_singleton_L; set_solver|].
    by vm_compute.
Qed.

(** C10 at a fitted model with the tracking store up. *)
Lemma C10_evaluate_model_returns_witness :
  exists d : gmap string (gmap string nat),
    evaluate_model nodes_namespace (toy (fun _ => true) true) 1 2 9 []
      = (Returned d,
         [Metric "rmse" 6; Metric "mae" 6; Metric "r2" 0;
          Info "Model has a coefficient R^2 of %.3f." 0]) ∧
    dom d = {[ "train" ]} ∧
    exists m, d !! "train" = Some m ∧
      dom m = {[ "rmse"; "mae"; "r2" ]} ∧
      m !! "rmse" = Some 6 ∧ m !! "mae" = Some 6 ∧ m !! "r2" = Some 0.
Proof.
  apply (C10_evaluate_model_returns_train_metrics
           nodes_namespace (toy (fun _ => true) true) 1 2 9 [] 6 6 0 []).
  - apply union_subseteq_l.
  - exists 3, 36, [], [], [], []. repeat split; reflexivity.
  - exists 0, [Metric "rmse" 6], [Metric "rmse" 6; Metric "mae" 6],
      [Metric "rmse" 6; Metric "mae" 6; Metric "r2" 0],
      [Metric "rmse" 6; Metric "mae" 6; Metric "r2" 0].
    repeat split; reflexivity.
Defined.

(** * Beyond the cells: files, project, hosts, failures *)

Import Files Project Tracked Hosts Download Worlds Operators.

(** ** Files written with [%%writefile] *)





(** X3: each registered pipeline (red, white and their sum) is one Kedro
    accepts: node names are unique, no dataset is produced by two nodes,
    and every input that no node produces is found: it is [parameters], a
    [params:] key of the [parameters.yml] the notebook wrote, or a dataset
    of the [catalog.yml] it wrote. *)
Theorem registered_pipelines_resolve (dir : string) :
  Forall (fun p =>
    NoDup (k_name <$> snd p) ∧
    NoDup (produced (snd p)) ∧
    Forall (resolves (catalog (after_exercise dir)) (parameters (after_exercise dir)))
           (free_inputs (snd p)))
    register_pipelines ∧
  (fun p => (fst p, free_inputs (snd p))) <$> register_pipelines
    = [ ("red", ["wines-red"; "parameters"]);
        ("white", ["params:white_wine_data_url"; "parameters"]);
        ("__default__", ["wines-red"; "params:white_wine_data_url"; "parameters"]) ].
Proof. settle. Qed.

(** X16: every node that runs a function the notebook defines passes it as
    many datasets as the function has parameters and takes one output:
    [evaluate_model] gets a model, test features and test targets, in the
    order of its parameters [pipe], [x_test], [y_test]; [download_data]
    gets the url parameter. *)
Theorem nodes_match_function_signatures :
  Forall (fun p =>
    Forall (fun n =>
      Forall (fun f => length (k_inputs n) = length (f_params f) ∧ length (k_outputs n) = 1)
             (option_list (node_function n)))
      (snd p)) all_pipelines ∧
  (fun n => (k_func n, k_inputs n))
    <$> filter (fun n => is_Some (node_function n)) (flat_map snd all_pipelines)
    = [ ("evaluate_model", ["model"; "x_test"; "y_test"]);
        ("evaluate_model", ["model_red"; "x_test_red"; "y_test_red"]);
        ("download_data", ["params:white_wine_data_url"]);
        ("evaluate_model", ["model_white"; "x_test_white"; "y_test_white"]);
        ("evaluate_model", ["model_red"; "x_test_red"; "y_test_red"]);
        ("download_data", ["params:white_wine_data_url"]);
        ("evaluate_model", ["model_white"; "x_test_white"; "y_test_white"]) ] ∧
  (fun f => (f_name f, p_name <$> f_params f))
    <$> (snd <$> functions_of [evaluate_model_cell; download_data_cell])
    = [ ("evaluate_model", ["pipe"; "x_test"; "y_test"]); ("download_data", ["url"]) ].
Proof. settle. Qed.

(** X4: the two [dvc run] stages of the exercise declare as outputs and
    metrics exactly the files their Kedro pipeline writes according to the
    catalog, but for one: the white wine pipeline also writes
    [data/01_raw/winequality-white.csv] (its download node produces
    [wines-white]), and the stage [kedro_white] declares that file as a
    dependency.  The red wine pipeline only reads its raw file. *)
Theorem kedro_stages_declare_pipeline_files (dir : string) :
  (fun s => (s_name s, stage_pipeline s)) <$> dvc_stages kedro_exercise
    = [("kedro_red", Some "red"); ("kedro_white", Some "white")] ∧
  Forall (fun s =>
    stage_writes s
      = filter (fun f => f ∉ s_deps s)
               (pipeline_writes (catalog (after_exercise dir)) (stage_nodes s)) ∧
    Forall (fun f => f ∈ s_deps s)
           (pipeline_reads (catalog (after_exercise dir)) (stage_nodes s)))
    (dvc_stages kedro_exercise) ∧
  (fun s => filter (fun f => f ∈ s_deps s)
                   (pipeline_writes (catalog (after_exercise dir)) (stage_nodes s)))
    <$> dvc_stages kedro_exercise
    = [ []; ["data/01_raw/winequality-white.csv"] ] ∧
  (fun s => pipeline_reads (catalog (after_exercise dir)) (stage_nodes s))
    <$> dvc_stages kedro_exercise
    = [ ["data/01_raw/winequality-red.csv"]; [] ].
Proof. settle. Qed.

(** X5: every parameter the two stages track with [-p] is a key of the
    [parameters.yml] the notebook wrote; the stages track the same four
    keys, so the parameter [white_wine_data_url], which the white wine
    pipeline reads by name, is tracked by neither. *)
Theorem kedro_stages_track_parameters (dir : string) :
  Forall (fun s =>
    Forall (fun fk =>
      absolute project_dir (fst fk) ∈ dom (files (after_exercise dir)) ∧
      Forall (fun key => key ∈ e_name <$> parameters (after_exercise dir)) (snd fk))
      (tracked_params s))
    (dvc_stages kedro_exercise) ∧
  (fun s => flat_map snd (tracked_params s)) <$> dvc_stages kedro_exercise
    = [ ["test_size"; "random_state"; "alpha"; "l1_ratio"];
        ["test_size"; "random_state"; "alpha"; "l1_ratio"] ] ∧
  (fun s => filter (fun key => key ∉ flat_map snd (tracked_params s))
                   (named_params (stage_nodes s))) <$> dvc_stages kedro_exercise
    = [ []; ["white_wine_data_url"] ].
Proof. settle. Qed.

(** X6: in the DVC notebook no file is written by two stages; every stage
    runs the script [dvc_introduction.py] and declares it as a dependency;
    every file its command is given is one of its declared dependencies or
    outputs, and every declared dependency but the script is given to the
    command. *)
Theorem dvc_stages_declare_command_files :
  NoDup (flat_map stage_writes (dvc_stages dvc_introduction)) ∧
  Forall (fun s =>
    command_script s = Some "dvc_introduction.py" ∧
    "dvc_introduction.py" ∈ s_deps s ∧
    Forall (fun f => f ∈ s_deps s ++ s_outs s) (command_args s) ∧
    Forall (fun f => f ∈ command_args s)
           (filter (fun f => f ≠ "dvc_introduction.py") (s_deps s)))
    (dvc_stages dvc_introduction).
Proof. settle. Qed.

(** ** Host files and ports *)






(** X9: no host port is published by two services, and every port that a
    notebook passes to a server it starts is published: 7777 of [uvicorn]
    by the jupyter service, 8080 of [airflow webserver] by the airflow
    service (the jupyter service does not publish 8080). *)
Theorem server_ports_are_published :
  NoDup (fst <$> all_host_ports docker_compose) ∧
  remove_dups (flat_map (fun p => server_ports (snd p)) notebooks)
    = [("uvicorn", 7777%N); ("airflow", 8080%N)] ∧
  (fun q => publisher (snd q))
    <$> remove_dups (flat_map (fun p => server_ports (snd p)) notebooks)
    = [Some "jupyter"; Some "airflow"] ∧
  8080%N ∉ default [] (host_ports <$> service_named docker_compose "jupyter").
Proof. settle. Qed.

(** ** Running [download_data] *)

Lemma download_binds_pd : "pd" ∈ bound download_namespace ∪ builtin_names.
Proof. compute_done. Qed.

Lemma download_lacks_logging : "logging" ∉ bound download_namespace ∪ builtin_names.
Proof. compute_done. Qed.

(** X10: in a namespace that binds [pd] and [logging], when the read and
    the two logging calls return, [download_data] returns the very frame
    [pd.read_csv] read from the url with separator [;], and the message it
    logs is ["Data downloaded from "] followed by the url. *)
Theorem download_data_returns_frame_read
  {O W : Type} (G : namespace) (E : data_externals O W) (url : string)
  (data logger : O) (w w1 w2 w3 : W) :
  {[ "pd"; "logging" ]} ⊆ bound G ->
  read_csv E url ";" w = (Returned data, w1) ->
  get_logger E (dunder_name G) w1 = (Returned logger, w2) ->
  log_info E logger ("Data downloaded from " +:+ url) w2 = (Returned (), w3) ->
  download_data G E url w = (Returned data, w3).
Proof.
  intros Hsub H1 H2 H3.
  assert (Hpd : "pd" ∈ bound G ∪ builtin_names)
    by (apply elem_of_union_l, Hsub; compute_done).
  assert (Hlog : "logging" ∈ bound G ∪ builtin_names)
    by (apply elem_of_union_l, Hsub; compute_done).
  unfold download_data.
  reads "pd" Hpd. returned H1. reads "logging" Hlog.
  reads "__name__" (builtin_bound G "__name__" ltac:(compute_done)).
  returned H2. returned H3. reflexivity.
Qed.

(** X10 on a reachable url. *)
Lemma download_data_returns_witness :
  download_data data_namespace (web (fun _ => true)) "http://host/white.csv" []
  = (Returned "http://host/white.csv",
     [ Fetched "http://host/white.csv" ";";
       Logged "Data downloaded from http://host/white.csv" ]).
Proof.
  apply (download_data_returns_frame_read data_namespace (web (fun _ => true))
           "http://host/white.csv" "http://host/white.csv"
           "workflow_tutorial.pipelines.nodes" []
           [Fetched "http://host/white.csv" ";"] [Fetched "http://host/white.csv" ";"]).
  - apply reflexivity.
  - reflexivity.
  - reflexivity.
  - reflexivity.
Defined.

(** X11: called in the kernel of the exercise notebook, where [logging] is
    not imported, [download_data] never returns: when [pd.read_csv]
    returns, the data has been read and the call then raises the NameError
    for [logging]; when [pd.read_csv] raises, its exception leaves the
    function.  The names its body reads are [pd], [logging] and
    [__name__]; the cell leaves only [logging] unbound. *)
Theorem download_data_raises_in_exercise_kernel
  {O W : Type} (E : data_externals O W) (url : string) (w : W) :
  (exists e w', download_data download_namespace E url w = (Threw e, w')) ∧
  (forall data w1,
     read_csv E url ";" w = (Returned data, w1) ->
     download_data download_namespace E url w = (Threw (NameError "logging"), w1)) ∧
  (forall e w1,
     read_csv E url ";" w = (Threw e, w1) ->
     download_data download_namespace E url w = (Threw e, w1)) ∧
  global_reads <$> functions download_data_cell = [["pd"; "logging"; "__name__"]] ∧
  unbound_names download_data_cell <$> functions download_data_cell = [["logging"]].
Proof.
  assert (Hret : forall data w1,
     read_csv E url ";" w = (Returned data, w1) ->
     download_data download_namespace E url w = (Threw (NameError "logging"), w1)).
  { intros data w1 H1. unfold download_data.
    reads "pd" download_binds_pd. returned H1.
    read_fails "logging" download_lacks_logging. reflexivity. }
  assert (Hthrow : forall e w1,
     read_csv E url ";" w = (Threw e, w1) ->
     download_data download_namespace E url w = (Threw e, w1)).
  { intros e w1 H1. unfold download_data.
    reads "pd" download_binds_pd. by threw H1. }
  split; [|split; [exact Hret | split; [exact Hthrow | settle]]].
  destruct (outcome_cases (read_csv E url ";") w) as [(data & w1 & H1) | (e & w1 & H1)].
  - exists (NameError "logging"), w1. by apply (Hret data).
  - exists e, w1. by apply Hthrow.
Qed.

(** X11 on a reachable url: the file is fetched, then [logging] is missing. *)
Lemma download_data_raises_witness :
  download_data download_namespace (web (fun _ => true)) "http://host/white.csv" []
  = (Threw (NameError "logging"), [Fetched "http://host/white.csv" ";"]).
Proof.
  apply (proj1 (proj2 (download_data_raises_in_exercise_kernel
                         (web (fun _ => true)) "http://host/white.csv" []))
               "http://host/white.csv").
  reflexivity.
Defined.

(** ** [evaluate_model] when a call fails *)

(** X12: in a namespace that binds the names the body reads, when
    [pipe.predict] or one of the sklearn and numpy calls raises,
    [evaluate_model] raises that exception and leaves the world as that
    call left it: no metric has been sent to MLflow and nothing logged. *)
Theorem evaluate_model_logs_nothing_when_a_metric_fails
  {O F W : Type} (G : namespace) (E : externals O F W) (pipe x_test y_test : O)
  (w : W) (e : exn) (w' : W) :
  names_read ⊆ bound G ->
  metrics_raise E pipe x_test y_test w e w' ->
  evaluate_model G E pipe x_test y_test w = (Threw e, w').
Proof.
  intros Hsub Hraise.
  assert (Hread : forall x, x ∈ names_read -> x ∈ bound G ∪ builtin_names)
    by (intros x; by apply read_name_bound).
  assert (Hnp := Hread "np" ltac:(compute_done)).
  assert (Hmse := Hread "mean_squared_error" ltac:(compute_done)).
  assert (Hmae := Hread "mean_absolute_error" ltac:(compute_done)).
  assert (Hr2 := Hread "r2_score" ltac:(compute_done)).
  unfold evaluate_model.
  destruct Hraise as [H1 | (y_pred & w1 & H1 & Hraise)]; [by threw H1|].
  returned H1. reads "np" Hnp. reads "mean_squared_error" Hmse.
  destruct Hraise as [H2 | (mse & w2 & H2 & Hraise)]; [by threw H2|].
  returned H2.
  destruct Hraise as [H3 | (rmse & w3 & H3 & Hraise)]; [by threw H3|].
  returned H3. reads "mean_absolute_error" Hmae.
  destruct Hraise as [H4 | (mae & w4 & H4 & H5)]; [by threw H4|].
  returned H4. reads "r2_score" Hr2. by threw H5.
Qed.

(** X12 where [r2_score] raises: the tracking store stays empty. *)
Lemma evaluate_model_logs_nothing_witness :
  evaluate_model nodes_namespace no_r2 1 2 9 [] = (Threw (Raised "ValueError"), []).
Proof.
  apply (evaluate_model_logs_nothing_when_a_metric_fails nodes_namespace no_r2 1 2 9 []).
  - apply union_subseteq_l.
  - right. exists 3, []. split; [reflexivity|].
    right. exists 36, []. split; [reflexivity|].
    right. exists 6, []. split; [reflexivity|].
    right. exists 6, []. split; reflexivity.
Defined.

(** X13: the three [mlflow.log_metric] calls are not undone when a later
    one fails: if the metrics are computed, ["rmse"] is logged and the call
    for ["mae"] raises, [evaluate_model] raises that exception with
    ["rmse"] already in the tracking store. *)
Theorem evaluate_model_keeps_metrics_logged_before_a_failure
  {O F W : Type} (G : namespace) (E : externals O F W) (pipe x_test y_test : O)
  (w : W) (rmse mae r2 : F) (e : exn) (w1 w2 w3 : W) :
  names_read ⊆ bound G ->
  metrics_return E pipe x_test y_test w rmse mae r2 w1 ->
  log_metric E "rmse" rmse w1 = (Returned (), w2) ->
  log_metric E "mae" mae w2 = (Threw e, w3) ->
  evaluate_model G E pipe x_test y_test w = (Threw e, w3).
Proof.
  intros Hsub (y_pred & mse & v1 & v2 & v3 & v4 & H1 & H2 & H3 & H4 & H5) L1 L2.
  assert (Hread : forall x, x ∈ names_read -> x ∈ bound G ∪ builtin_names)
    by (intros x; by apply read_name_bound).
  unfold evaluate_model.
  returned H1.
  reads "np" (Hread "np" ltac:(compute_done)).
  reads "mean_squared_error" (Hread "mean_squared_error" ltac:(compute_done)).
  returned H2. returned H3.
  reads "mean_absolute_error" (Hread "mean_absolute_error" ltac:(compute_done)).
  returned H4.
  reads "r2_score" (Hread "r2_score" ltac:(compute_done)).
  returned H5.
  reads "mlflow" (Hread "mlflow" ltac:(compute_done)). returned L1.
  reads "mlflow" (Hread "mlflow" ltac:(compute_done)). by threw L2.
Qed.

(** X13 with a store that only accepts ["rmse"]. *)
Lemma evaluate_model_keeps_metrics_witness :
  evaluate_model nodes_namespace (picky (fun k => bool_decide (k = "rmse"))) 1 2 9 []
  = (Threw (Raised "MlflowException"), [Metric "rmse" 6]).
Proof.
  apply (evaluate_model_keeps_metrics_logged_before_a_failure
           nodes_namespace (picky (fun k => bool_decide (k = "rmse"))) 1 2 9 [] 6 6 0
           (Raised "MlflowException") [] [Metric "rmse" 6] [Metric "rmse" 6]).
  - apply union_subseteq_l.
  - exists 3, 36, [], [], [], []. repeat split; reflexivity.
  - reflexivity.
  - reflexivity.
Defined.

(** X14: in a namespace that binds [mlflow] and the metric functions but not
    [logging], [evaluate_model] sends all three metrics to MLflow and only
    then raises the NameError for [logging]: the metrics are tracked
    although the call fails. *)
Theorem evaluate_model_tracks_before_logging_is_missed
  {O F W : Type} (G : namespace) (E : externals O F W) (pipe x_test y_test : O)
  (w : W) (rmse mae r2 : F) (w1 w2 : W) :
  {[ "np"; "mean_squared_error"; "mean_absolute_error"; "r2_score"; "mlflow" ]} ⊆ bound G ->
  "logging" ∉ bound G ->
  metrics_return E pipe x_test y_test w rmse mae r2 w1 ->
  metrics_logged E rmse mae r2 w1 w2 ->
  evaluate_model G E pipe x_test y_test w = (Threw (NameError "logging"), w2).
Proof.
  intros Hsub Hno (y_pred & mse & v1 & v2 & v3 & v4 & H1 & H2 & H3 & H4 & H5)
         (u1 & u2 & L1 & L2 & L3).
  assert (Hread : forall x,
            x ∈ ({[ "np"; "mean_squared_error"; "mean_absolute_error"; "r2_score";
                    "mlflow" ]} : gset string) -> x ∈ bound G ∪ builtin_names)
    by (intros x Hx; apply elem_of_union_l; by apply Hsub).
  assert (Hout : "logging" ∉ bound G ∪ builtin_names).
  { intros [Hin | Hin]%elem_of_union; [by apply Hno|].
    revert Hin. compute_done. }
  unfold evaluate_model.
  returned H1.
  reads "np" (Hread "np" ltac:(compute_done)).
  reads "mean_squared_error" (Hread "mean_squared_error" ltac:(compute_done)).
  returned H2. returned H3.
  reads "mean_absolute_error" (Hread "mean_absolute_error" ltac:(compute_done)).
  returned H4.
  reads "r2_score" (Hread "r2_score" ltac:(compute_done)).
  returned H5.
  reads "mlflow" (Hread "mlflow" ltac:(compute_done)). returned L1.
  reads "mlflow" (Hread "mlflow" ltac:(compute_done)). returned L2.
  reads "mlflow" (Hread "mlflow" ltac:(compute_done)). returned L3.
  read_fails "logging" Hout. reflexivity.
Qed.

(** X14 with [mlflow] imported and [logging] forgotten. *)
Lemma evaluate_model_tracks_before_logging_witness :
  evaluate_model without_logging (toy (fun _ => true) true) 1 2 9 []
  = (Threw (NameError "logging"), [Metric "rmse" 6; Metric "mae" 6; Metric "r2" 0]).
Proof.
  apply (evaluate_model_tracks_before_logging_is_missed
           without_logging (toy (fun _ => true) true) 1 2 9 [] 6 6 0 []).
  - apply reflexivity.
  - compute_done.
  - exists 3, 36, [], [], [], []. repeat split; reflexivity.
  - exists [Metric "rmse" 6], [Metric "rmse" 6; Metric "mae" 6]. repeat split; reflexivity.
Defined.

(** ** The operators of the Airflow listings *)

(** X15: in the listings of both Airflow notebooks an operator provides the
    context exactly when the function it runs takes [**context]; and the
    one function that pulls an XCom value, [bar] of [task2], pulls it from
    [task1], which the listing orders before it with [task1 >> task2]. *)
Theorem operators_provide_context_to_pullers :
  Forall (fun m =>
    Forall (fun o =>
      Forall (fun f => takes_context f = provides_context o) (option_list (callable m o)))
      (operators m) ∧
    Forall (fun e => e ∈ module_orderings m) (pull_edges m))
    (airflow_listings ++ presentation_listings) ∧
  pull_edges <$> airflow_listings = [ []; []; [("task1", "task2")] ] ∧
  (fun m => (fun o => (o_var o, f_name <$> callable m o, provides_context o)) <$> operators m)
    <$> airflow_listings
    = [ [ ("python_task", Some "print_sth", false); ("fs_task", None, false) ];
        [];
        [ ("task1", Some "foo", false); ("task2", Some "bar", true) ] ].
Proof. settle. Qed.
